(** * aqms_notify: the notification runner of shakemap-aqms

    A shallow embedding of [src/shakemap_aqms/coremods/aqms_notify.py]
    (class [NotificationModule]: [__init__], [execute], [parseArgs]) and
    the properties of it that the specification states.

    Python strings are modelled as [string], read as sequences of code
    points below 256; dictionaries as [gmap] with string keys; the
    effects of [execute] (collaborator calls, the subprocess, the log)
    as a trace of events next to a result that is a value or a raised
    exception. *)

From Stdlib Require Import ZArith Ascii String List Bool Lia.
From Equations Require Import Equations.
From stdpp Require Import base option list sorting gmap strings.

Local Open Scope string_scope.

(** ** Python string operations *)

Module PyStr.

(** [str.lower] on one code point below 256: the upper-case letters are
    A-Z and U+00C0..U+00DE without the multiplication sign U+00D7; each
    has its lower-case form 32 places further. *)
Definition lower_char (c : ascii) : ascii :=
  let n := N_of_ascii c in
  if ((65 <=? n) && (n <=? 90))%N
     || ((192 <=? n) && (n <=? 222) && negb (n =? 215))%N
  then ascii_of_N (n + 32) else c.

(** [s.lower()]. (Above code point 255 Python's [lower] can change the
    length of a string; nothing below relies on the length of a string
    in lower case being that of the string.) *)
Fixpoint lower (s : string) : string :=
  match s with
  | EmptyString => EmptyString
  | String c s' => String (lower_char c) (lower s')
  end.

(** [s.startswith(p)] *)
Fixpoint startswith (p s : string) : bool :=
  match p, s with
  | EmptyString, _ => true
  | String _ _, EmptyString => false
  | String a p', String b s' => Ascii.eqb a b && startswith p' s'
  end.

(** [sub in s]: [sub] occurs somewhere in [s]. *)
Fixpoint contains (sub s : string) : bool :=
  match s with
  | EmptyString => startswith sub EmptyString
  | String _ s' => startswith sub s || contains sub s'
  end.

(** [s[n:]] *)
Fixpoint slice_from (n : nat) (s : string) : string :=
  match n, s with
  | O, _ => s
  | S _, EmptyString => EmptyString
  | S n', String _ s' => slice_from n' s'
  end.

(** [sep.join(l)] *)
Fixpoint join (sep : string) (l : list string) : string :=
  match l with
  | [] => EmptyString
  | [x] => x
  | x :: l' => x +:+ sep +:+ join sep l'
  end.

(** [c.isspace()] for a code point below 256: TAB..CR, FS..US, the
    space, NEL (U+0085) and the no-break space (U+00A0). *)
Definition isspace (c : ascii) : bool :=
  let n := N_of_ascii c in
  (((9 <=? n) && (n <=? 13)) || ((28 <=? n) && (n <=? 32))
   || (n =? 133) || (n =? 160))%N.

(** [s.split()] without arguments: the maximal runs of non-whitespace
    characters, in order. [cur] is the run being read. *)
Fixpoint split_from (cur : string) (s : string) : list string :=
  match s with
  | EmptyString => if decide (cur = EmptyString) then [] else [cur]
  | String c s' =>
      if isspace c
      then (if decide (cur = EmptyString) then split_from EmptyString s'
            else cur :: split_from EmptyString s')
      else split_from (cur +:+ String c EmptyString) s'
  end.

Definition split (s : string) : list string := split_from EmptyString s.

(** [s.replace(old, new)] for a non-empty [old]: scanning from the left,
    each occurrence of [old] found is replaced and the scan resumes
    after it. *)
Equations replace_ne (old new : string) (s : string) : string
  by wf (String.length s) lt :=
  replace_ne old new EmptyString := EmptyString;
  replace_ne old new (String c s') :=
    if startswith old (String c s')
    then new +:+ replace_ne old new (slice_from (String.length old - 1) s')
    else String c (replace_ne old new s').
Next Obligation.
  intros old _ c s' _. generalize (String.length old - 1). intros n.
  revert s'. induction n as [|n IH]; intros [|b s']; simpl; auto with lia.
  specialize (IH s'). simpl in IH. lia.
Qed.
Next Obligation. intros. simpl. lia. Qed.

(** With an empty [old], Python puts [new] before every character and
    at the end. *)
Fixpoint replace_empty (new s : string) : string :=
  match s with
  | EmptyString => new
  | String c s' => new +:+ String c (replace_empty new s')
  end.

Definition replace (old new s : string) : string :=
  if decide (old = EmptyString) then replace_empty new s
  else replace_ne old new s.

End PyStr.

(** [os.path.join(a, *p)] of posixpath: a component that starts with the
    separator restarts the path; otherwise it is appended, with a
    separator unless the path so far is empty or already ends in one. *)
Module os_path.

Fixpoint endswith_sep (s : string) : bool :=
  match s with
  | EmptyString => false
  | String c EmptyString => Ascii.eqb c "/"
  | String _ s' => endswith_sep s'
  end.

Definition join_step (path b : string) : string :=
  if PyStr.startswith "/" b then b
  else if decide (path = EmptyString) then path +:+ b
  else if endswith_sep path then path +:+ b
  else path +:+ "/" +:+ b.

Definition join (a : string) (p : list string) : string :=
  fold_left join_step p a.

End os_path.

Arguments os_path.join : simpl never.

(** ** Data model *)

(** The parsed origin of [shakelib.rupture.origin.Origin]: of its
    attributes [execute] reads the network id and the origin time (the
    time only to format [evtime], which is never used afterwards). *)
Record Origin := { netid : string; time : Z }.

(** An action descriptor is a dictionary with the keys [command] and,
    optionally, [undo_command]; the configuration is a dictionary of
    sections, of which [execute] reads [notify]: action name to action
    descriptor. *)
Abbreviation Action := (gmap string string).
Abbreviation Config := (gmap string (gmap string (gmap string string))).

(** The exceptions that occur. [KeyboardInterrupt] and [SystemExit]
    derive from [BaseException] only: an [except Exception] clause does
    not catch them. *)
Inductive PyExc :=
| NotADirectoryError (msg : string)
| FileNotFoundError (msg : string)
| PermissionError (msg : string)
| KeyError (key : string)
| AttributeError (name : string)
| IndexError (msg : string)
| RuntimeError (msg : string)
| KeyboardInterrupt
| SystemExit (code : Z).

Definition is_Exception (e : PyExc) : bool :=
  match e with
  | KeyboardInterrupt | SystemExit _ => false
  | _ => true
  end.

(** What [subprocess.run(cmd, capture_output=True)] does: it returns a
    [CompletedProcess] with a return code and the captured output, or
    it raises. *)
Inductive RunOutcome :=
| Completed (returncode : Z) (stdout : list Byte.byte)
| RunRaises (err : PyExc).

(** Arguments of a log message, next to its format string. *)
Inductive LogArg :=
| ArgStr (s : string)              (* a [str], formatted with [%s] *)
| ArgInt (n : Z)                   (* an [int], formatted with [%d] *)
| ArgBytes (b : list Byte.byte)    (* [str(b)] of a [bytes] object *)
| ArgList (l : list string)        (* a list of [str], formatted with [%s] *)
| ArgExc (e : PyExc).              (* an exception, formatted with [%s] *)

(** The observable events of a run, in the order they happen. *)
Inductive Event :=
| EvGetConfigPaths                      (* [get_config_paths()] *)
| EvOriginFromFile (datafile : string)  (* [Origin.fromFile(datafile)] *)
| EvGetAqmsConfig                       (* [get_aqms_config()] *)
| EvRun (cmd : list string)             (* [subprocess.run(cmd, ...)] is called *)
| EvLogInfo (fmt : string) (args : list LogArg)
| EvLogWarn (fmt : string) (args : list LogArg).

(** The collaborators of [execute]: what each returns (or raises) in
    the run at hand. *)
Record World := {
  get_config_paths : PyExc + (string * string);  (* install_path, data_path *)
  os_path_isdir : string -> bool;
  os_path_isfile : string -> bool;
  Origin_fromFile : string -> PyExc + Origin;
  get_aqms_config : PyExc + Config;
  subprocess_run : list string -> RunOutcome;
}.

(** ** Effects: a trace of events and a value or a raised exception *)

Definition M (A : Type) : Type := (list Event * (PyExc + A))%type.

Definition trace {A} (m : M A) : list Event := fst m.
Definition result {A} (m : M A) : PyExc + A := snd m.

Definition raise {A} (e : PyExc) : M A := ([], inl e).
Definition tell (ev : Event) : M unit := ([ev], inr tt).
Definition call {A} (ev : Event) (r : PyExc + A) : M A := ([ev], r).

#[export] Instance M_ret : MRet M := fun A a => ([], inr a).
#[export] Instance M_bind : MBind M := fun A B k m =>
  match m with
  | (t, inl e) => (t, inl e)
  | (t, inr a) => let '(t', r) := k a in ((t ++ t')%list, r)
  end.

(** [d[k]] on a dictionary. *)
Definition getitem {V} (d : gmap string V) (k : string) : M V :=
  match d !! k with
  | Some v => mret v
  | None => raise (KeyError k)
  end.

(** [d.keys()], in some order, and [sorted] on strings, which Python
    compares code point by code point. ([String.le] is a total order, so
    the sorted list does not depend on the sorting algorithm.) *)
Definition keys {V} (d : gmap string V) : list string := (map_to_list d).*1.
Definition sorted (l : list string) : list string := merge_sort String.le l.

(** How one pass through the body of a [for] loop ends: at its end
    ([Next]), by [break] or by [return]. *)
Inductive Ctl := Next | Break | Return.

Fixpoint for_each {A} (body : A -> M Ctl) (l : list A) : M Ctl :=
  match l with
  | [] => mret Next
  | x :: l' =>
      c ← body x;
      match c with
      | Next => for_each body l'
      | Break => mret Break
      | Return => mret Return
      end
  end.

(** ** The module *)

(** An instance of [NotificationModule]: the event id that
    [CoreModule.__init__] stores, and the attribute [cancel], which an
    instance may lack. *)
Record NotificationModule := {
  _eventid : string;
  cancel : option bool;
}.

(** [__init__(self, eventid, cancel)]: [None] for [cancel] is Python's
    [None]; the default of the parameter is [False]. *)
Definition __init__ (eventid : string) (cancel : option bool) : NotificationModule :=
  let self := {| _eventid := eventid; cancel := None |} in
  match cancel with
  | Some c => {| _eventid := _eventid self; cancel := Some c |}
  | None => self
  end.

(** [self.cancel] *)
Definition getattr_cancel (self : NotificationModule) : M bool :=
  match cancel self with
  | Some c => mret c
  | None => raise (AttributeError "cancel")
  end.

(** Lines 60-64: the event id under which AQMS knows the event. *)
Definition aqms_eventid (origin : Origin) (_eventid : string) : string :=
  if PyStr.contains (PyStr.lower (netid origin)) _eventid
  then PyStr.slice_from 2 _eventid
  else _eventid.

(** Lines 81-82: the argument vector made from a command template. *)
Definition command_argv (cmd : string) (aqms_eventid : string) : list string :=
  let cmd := PyStr.replace "<EVENT>" aqms_eventid cmd in
  PyStr.split cmd.

(** [config['notify'][action_name]] *)
Definition notify_action (config : Config) (action_name : string) : M Action :=
  notify ← getitem config "notify";
  getitem notify action_name.

(** Lines 71-78: the command template of the action, or [None] where
    the loop breaks because there is nothing to undo. *)
Definition select_command (self : NotificationModule) (config : Config)
    (action_name : string) : M (option string) :=
  c ← getattr_cancel self;
  if c : bool then
    action ← notify_action config action_name;
    if decide (is_Some (action !! "undo_command")) then
      action ← notify_action config action_name;
      cmd ← getitem action "undo_command";
      mret (Some cmd)
    else mret None
  else
    action ← notify_action config action_name;
    cmd ← getitem action "command";
    mret (Some cmd).

(** Lines 84-94: the [try] statement. *)
Definition try_run (w : World) (cmd : list string) : M Ctl :=
  tell (EvRun cmd);;
  match subprocess_run w cmd with
  | Completed returncode stdout =>
      tell (EvLogInfo "The command to we ran is: %s" [ArgStr (PyStr.join " " cmd)]);;
      tell (EvLogInfo "Return code: %d, stdout is: %s" [ArgInt returncode; ArgBytes stdout]);;
      mret Return
  | RunRaises err =>
      if is_Exception err then
        tell (EvLogWarn "Error running command: %s" [ArgList cmd]);;
        tell (EvLogWarn "Error: %s" [ArgExc err]);;
        mret Break
      else raise err
  end.

(** Lines 70-94: the body of the loop over the action names. *)
Definition loop_body (self : NotificationModule) (w : World) (config : Config)
    (aqms_eventid : string) (action_name : string) : M Ctl :=
  cmd ← select_command self config action_name;
  match cmd with
  | None => mret Break
  | Some cmd => try_run w (command_argv cmd aqms_eventid)
  end.

(** [execute(self)] *)
Definition execute (self : NotificationModule) (w : World) : M unit :=
  '(install_path, data_path) ← call EvGetConfigPaths (get_config_paths w);
  let datadir := os_path.join data_path [_eventid self; "current"] in
  if negb (os_path_isdir w datadir) then
    raise (NotADirectoryError (datadir +:+ " is not a valid directory."))
  else
    let datafile := os_path.join datadir ["event.xml"] in
    if negb (os_path_isfile w datafile) then
      raise (FileNotFoundError (datafile +:+ " does not exist."))
    else
      origin ← call (EvOriginFromFile datafile) (Origin_fromFile w datafile);
      let aqms_eventid := aqms_eventid origin (_eventid self) in
      config ← call EvGetAqmsConfig (get_aqms_config w);
      (* evtime = origin.time.strftime(...) is computed here and not used *)
      notify ← getitem config "notify";
      for_each (loop_body self w config aqms_eventid) (sorted (keys notify));;
      mret tt.

(** ** The command line *)

(** [parseArgs] hands the argument list to Python's [argparse]. This is
    a model of [ArgumentParser.parse_args] for the one parser that
    [parseArgs] builds: the options [-h]/[--help] (added by default) and
    [-c]/[--cancel] ([store_true]), and the positional [rem] with
    [nargs=REMAINDER]. It follows the steps of the library: every
    argument string is classified as option-like or positional, options
    are consumed from the front, and the positional takes everything
    from the first argument that is not consumed as an option.

    The library resolves abbreviated option strings ([--can]), clusters
    ([-ch]) and attached values ([-c=1]) in ways that changed between
    Python versions; the model says so ([None]) where the result depends
    on them, and is total otherwise. *)
Module argparse.

Record Namespace := { ns_cancel : bool; rem : list string }.

Inductive OptAction := act_help | act_cancel.

(** [_option_string_actions] of the parser. *)
Definition option_string_actions (s : string) : option OptAction :=
  if decide (s = "-h") then Some act_help
  else if decide (s = "--help") then Some act_help
  else if decide (s = "-c") then Some act_cancel
  else if decide (s = "--cancel") then Some act_cancel
  else None.

(** The class of an argument string: ['A'], ['-'] or ['O'] in the
    library's pattern, the option-like ones told apart by what they
    resolve to. *)
Inductive ArgClass :=
| Positional
| DoubleDash
| Optional (a : OptAction)   (* an option string of the parser, in full *)
| OptionalUnknown            (* option-like, no option of this parser *)
| OptionalVariant.           (* abbreviation, cluster or attached value
                                built on an option string of the parser *)

Fixpoint has_char (c : ascii) (s : string) : bool :=
  match s with
  | EmptyString => false
  | String a s' => Ascii.eqb a c || has_char c s'
  end.

(** The part of [s] before its first ['=']. *)
Fixpoint before_eq (s : string) : string :=
  match s with
  | EmptyString => EmptyString
  | String a s' => if Ascii.eqb a "=" then EmptyString else String a (before_eq s')
  end.

Definition isdigit (c : ascii) : bool :=
  let n := N_of_ascii c in ((48 <=? n) && (n <=? 57))%N.

(** [\d+$]: one or more digits up to the end, or up to a final newline. *)
Fixpoint digits_to_end (s : string) : bool :=
  match s with
  | EmptyString => false
  | String a s' =>
      isdigit a &&
      (if decide (s' = EmptyString) then true
       else if decide (s' = String "010" EmptyString) then true
       else digits_to_end s')
  end.

(** [\d*\.\d+$] *)
Fixpoint decimal_to_end (s : string) : bool :=
  match s with
  | EmptyString => false
  | String a s' =>
      if Ascii.eqb a "." then digits_to_end s'
      else isdigit a && decimal_to_end s'
  end.

(** [_negative_number_matcher]: ['^-\d+$|^-\d*\.\d+$']. *)
Definition negative_number (s : string) : bool :=
  match s with
  | String "-" s' => digits_to_end s' || decimal_to_end s'
  | _ => false
  end.

(** [_parse_optional(arg_string)]: [None] where the library finds the
    string ambiguous between [--help] and [--cancel]. *)
Definition _parse_optional (arg_string : string) : option ArgClass :=
  match arg_string with
  | EmptyString => Some Positional
  | String c rest =>
      if negb (Ascii.eqb c "-") then Some Positional
      else
        match option_string_actions arg_string with
        | Some a => Some (Optional a)
        | None =>
            if decide (rest = EmptyString) then Some Positional
            else
              let unmatched :=
                if negative_number arg_string then Positional
                else if has_char " " arg_string then Positional
                else OptionalUnknown in
              if PyStr.startswith "-" rest then
                let option_prefix := before_eq arg_string in
                if decide (option_prefix = "--") then None
                else if PyStr.startswith option_prefix "--help"
                        || PyStr.startswith option_prefix "--cancel"
                then Some OptionalVariant
                else Some unmatched
              else
                if PyStr.startswith "-h" arg_string
                   || PyStr.startswith "-c" arg_string
                then Some OptionalVariant
                else Some unmatched
        end
  end.

(** The classes of all argument strings: after [--] everything is
    positional. *)
Fixpoint arg_classes (arg_strings : list string) : option (list ArgClass) :=
  match arg_strings with
  | [] => Some []
  | a :: l =>
      if decide (a = "--") then Some (DoubleDash :: map (fun _ => Positional) l)
      else
        c ← _parse_optional a;
        cs ← arg_classes l;
        Some (c :: cs)
  end.

(** Options are consumed one by one from the front: [--cancel] sets the
    flag, [--help] prints the help and exits with status 0, an unknown
    option goes to [extras]. At the first string that is not option-like,
    or at the end, [rem] takes all that is left. Unrecognised arguments
    make [parse_args] exit with status 2. *)
Fixpoint consume (cancel : bool) (extras : list string)
    (args : list (ArgClass * string)) : option (PyExc + Namespace) :=
  match args with
  | (Optional act_cancel, _) :: args' => consume true extras args'
  | (Optional act_help, _) :: _ => Some (inl (SystemExit 0))
  | (OptionalUnknown, s) :: args' => consume cancel (extras ++ [s])%list args'
  | (OptionalVariant, _) :: _ => None
  | _ =>
      if decide (extras = []) then
        Some (inr {| ns_cancel := cancel; rem := args.*2 |})
      else Some (inl (SystemExit 2))
  end.

(** [parser.parse_args(arglist)]; the flag starts at its default,
    [False]. *)
Definition parse_args (arglist : list string) : option (PyExc + Namespace) :=
  classes ← arg_classes arglist;
  consume false [] (zip classes arglist).

End argparse.

(** [parseArgs(self, arglist)]: the instance with its flag set, and the
    arguments left for the modules that follow. *)
Definition parseArgs (self : NotificationModule) (arglist : list string)
  : option (PyExc + (NotificationModule * list string)) :=
  r ← argparse.parse_args arglist;
  match r with
  | inl e => Some (inl e)
  | inr args =>
      let self := {| _eventid := _eventid self;
                     cancel := Some (argparse.ns_cancel args) |} in
      Some (inr (self, argparse.rem args))
  end.

(** ** Worlds and configurations to run the model on *)

Module Demo.

Definition notify : gmap string (gmap string string) :=
  {[ "b_page" := {[ "command" := "page <EVENT>" ]};
     "a_alarm" := {[ "command" := "alarm -e <EVENT> --on";
                     "undo_command" := "alarm -e <EVENT> --off" ]} ]}.

Definition notify_no_undo : gmap string (gmap string string) :=
  {[ "a_page" := {[ "command" := "page <EVENT>" ]};
     "b_alarm" := {[ "command" := "alarm -e <EVENT> --on";
                     "undo_command" := "alarm -e <EVENT> --off" ]} ]}.

Definition origin : Origin := {| netid := "UW"; time := 1700000000 |}.

(** The event [uw1234] is on disk; of [uw77] only the directory is. *)
Definition world (notify : gmap string (gmap string string))
    (run : list string -> RunOutcome) : World :=
  {| get_config_paths := inr ("/opt/shakemap", "/data");
     os_path_isdir := fun p =>
       bool_decide (p = "/data/uw1234/current" \/ p = "/data/uw77/current");
     os_path_isfile := fun p =>
       bool_decide (p = "/data/uw1234/current/event.xml");
     Origin_fromFile := fun _ => inr origin;
     get_aqms_config := inr {[ "notify" := notify ]};
     subprocess_run := run |}.

Definition exits_with (code : Z) : list string -> RunOutcome :=
  fun _ => Completed code [].

Definition not_found : list string -> RunOutcome :=
  fun cmd => RunRaises (FileNotFoundError (PyStr.join " " cmd)).

End Demo.

(** ** What a run looks like when the event data is there *)

(** The data directory and the event file that [execute] looks for. *)
Definition datadir (w : World) (eventid : string) : string :=
  match get_config_paths w with
  | inr (_, data_path) => os_path.join data_path [eventid; "current"]
  | inl _ => EmptyString
  end.

Definition datafile (w : World) (eventid : string) : string :=
  os_path.join (datadir w eventid) ["event.xml"].

(** The paths are resolved, directory and file exist, and the origin
    parser and the configuration loader return [origin] and a
    configuration whose [notify] section is [notify]. *)
Definition ready (w : World) (eventid : string) (origin : Origin)
    (config : Config) (notify : gmap string (gmap string string)) : Prop :=
  (exists paths, get_config_paths w = inr paths) /\
  os_path_isdir w (datadir w eventid) = true /\
  os_path_isfile w (datafile w eventid) = true /\
  Origin_fromFile w (datafile w eventid) = inr origin /\
  get_aqms_config w = inr config /\
  config !! "notify" = Some notify.

(** The events up to the loop. *)
Definition preamble (w : World) (eventid : string) : list Event :=
  [EvGetConfigPaths; EvOriginFromFile (datafile w eventid); EvGetAqmsConfig].

(** The number of subprocess launches in a trace. *)
Definition is_run (ev : Event) : bool :=
  match ev with EvRun _ => true | _ => false end.

Definition launches (t : list Event) : nat := length (filter is_run t).

(** The template the loop body takes from an action descriptor. *)
Definition template (cancel : bool) (action : gmap string string) : option string :=
  if cancel then action !! "undo_command" else action !! "command".

(** The origin's network id is a prefix of the identifier when case is
    ignored. *)
Definition netid_prefix_ignoring_case (origin : Origin) (eventid : string) : bool :=
  PyStr.startswith (PyStr.lower (netid origin)) (PyStr.lower eventid).

(** A piece of a template in which the placeholder does not occur. *)
Definition placeholder_free (p : string) : Prop :=
  PyStr.contains "<EVENT>" p = false.

(** Worlds in which something goes wrong. *)
Module Faulty.

Definition no_profile : World :=
  {| get_config_paths := inl (RuntimeError "no profile");
     os_path_isdir := fun _ => true;
     os_path_isfile := fun _ => true;
     Origin_fromFile := fun _ => inr Demo.origin;
     get_aqms_config := inr {[ "notify" := Demo.notify ]};
     subprocess_run := Demo.exits_with 0 |}.

Definition bad_origin : World :=
  {| get_config_paths := inr ("/opt/shakemap", "/data");
     os_path_isdir := fun _ => true;
     os_path_isfile := fun _ => true;
     Origin_fromFile := fun _ => inl (KeyError "netid");
     get_aqms_config := inr {[ "notify" := Demo.notify ]};
     subprocess_run := Demo.exits_with 0 |}.

Definition bad_config : World :=
  {| get_config_paths := inr ("/opt/shakemap", "/data");
     os_path_isdir := fun _ => true;
     os_path_isfile := fun _ => true;
     Origin_fromFile := fun _ => inr Demo.origin;
     get_aqms_config := inl (FileNotFoundError "aqms.conf");
     subprocess_run := Demo.exits_with 0 |}.

(** A configuration with other sections only. *)
Definition no_notify : World :=
  {| get_config_paths := inr ("/opt/shakemap", "/data");
     os_path_isdir := fun _ => true;
     os_path_isfile := fun _ => true;
     Origin_fromFile := fun _ => inr Demo.origin;
     get_aqms_config := inr {[ "dbs" := ∅ ]};
     subprocess_run := Demo.exits_with 0 |}.

(** An action without a [command]. *)
Definition notify_undo_only : gmap string (gmap string string) :=
  {[ "a_alarm" := {[ "undo_command" := "alarm -e <EVENT> --off" ]} ]}.

Definition interrupted : list string -> RunOutcome :=
  fun _ => RunRaises KeyboardInterrupt.

End Faulty.

(** The number of log records in a trace. *)
Definition is_log (ev : Event) : bool :=
  match ev with
  | EvLogInfo _ _ | EvLogWarn _ _ => true
  | _ => false
  end.

Definition logs (t : list Event) : nat := length (filter is_log t).

(** All characters of a string satisfy [P]. *)
Fixpoint all_chars (P : ascii -> bool) (s : string) : bool :=
  match s with
  | EmptyString => true
  | String c s' => P c && all_chars P s'
  end.

(** A word: not empty and without white space. *)
Definition is_word (a : string) : Prop :=
  a <> "" /\ all_chars (fun c => negb (PyStr.isspace c)) a = true.

(** One of the two spellings of this module's flag. *)
Definition is_cancel_flag (a : string) : Prop := a = "-c" \/ a = "--cancel".

(** ** Lemmas on strings *)

Lemma startswith_contains p s :
  PyStr.startswith p s = true -> PyStr.contains p s = true.
Proof.
  destruct s as [|c s]; simpl; [done|].
  intros ->. reflexivity.
Qed.

(** ** Lemmas on the loop *)

Lemma launches_app t1 t2 : launches (t1 ++ t2) = launches t1 + launches t2.
Proof. unfold launches. by rewrite filter_app, length_app. Qed.

Lemma for_each_cons_ends {A} (body : A -> M Ctl) x l :
  result (body x) <> inr Next -> for_each body (x :: l) = body x.
Proof.
  simpl. unfold mbind, M_bind, mret, M_ret, result.
  destruct (body x) as [t [e|[]]]; simpl; intros H;
    try done; by rewrite app_nil_r.
Qed.

Lemma try_run_ends w cmd : result (try_run w cmd) <> inr Next.
Proof.
  unfold try_run. destruct (subprocess_run w cmd) as [rc out|err]; [done|].
  by destruct (is_Exception err).
Qed.

Lemma try_run_launches w cmd : launches (trace (try_run w cmd)) = 1.
Proof.
  unfold try_run. destruct (subprocess_run w cmd) as [rc out|err]; [done|].
  by destruct (is_Exception err).
Qed.

Lemma select_command_trace self config a : trace (select_command self config a) = [].
Proof.
  unfold select_command, getattr_cancel, notify_action, getitem.
  destruct (cancel self) as [[]|]; simpl; [| |done].
  - destruct (config !! "notify") as [n|]; simpl; [|done].
    destruct (n !! a) as [act|]; simpl; [|done].
    case_decide; simpl; [|done].
    by destruct (act !! "undo_command").
  - destruct (config !! "notify") as [n|]; simpl; [|done].
    destruct (n !! a) as [act|]; simpl; [|done].
    by destruct (act !! "command").
Qed.

Lemma loop_body_split self w config id a :
  loop_body self w config id a =
  match result (select_command self config a) with
  | inl e => ([], inl e)
  | inr None => ([], inr Break)
  | inr (Some cmd) => try_run w (command_argv cmd id)
  end.
Proof.
  unfold loop_body. pose proof (select_command_trace self config a) as Ht.
  destruct (select_command self config a) as [t [e|[cmd|]]];
    simpl in *; subst t; try done.
  unfold mbind, M_bind. simpl. by destruct (try_run w (command_argv cmd id)).
Qed.

Lemma loop_body_ends self w config id a :
  result (loop_body self w config id a) <> inr Next.
Proof.
  rewrite loop_body_split.
  destruct (result (select_command self config a)) as [e|[cmd|]]; try done.
  apply try_run_ends.
Qed.

Lemma loop_body_launches self w config id a :
  launches (trace (loop_body self w config id a)) <= 1.
Proof.
  rewrite loop_body_split.
  destruct (result (select_command self config a)) as [e|[cmd|]];
    simpl; try (unfold launches; simpl; lia).
  by rewrite try_run_launches.
Qed.

Lemma loop_launches self w config id l :
  launches (trace (for_each (loop_body self w config id) l)) <= 1.
Proof.
  destruct l as [|a l]; [unfold launches; simpl; lia|].
  rewrite for_each_cons_ends by apply loop_body_ends.
  apply loop_body_launches.
Qed.

(** With the event data there, a run is the preamble followed by the
    loop over the sorted action names. *)
Lemma execute_ready self w origin config notify :
  ready w (_eventid self) origin config notify ->
  execute self w =
  let r := for_each (loop_body self w config (aqms_eventid origin (_eventid self)))
                    (sorted (keys notify)) in
  ((preamble w (_eventid self) ++ trace r)%list,
   match result r with inl e => inl e | inr _ => inr tt end).
Proof.
  intros ([[ip dp] Hp] & Hdir & Hfile & Ho & Hc & Hn).
  unfold execute, preamble, datafile, datadir in *.
  rewrite Hp in *. unfold call, mbind, M_bind. simpl.
  rewrite Hdir. simpl. rewrite Hfile. simpl. rewrite Ho, Hc.
  unfold getitem. rewrite Hn. simpl.
  destruct (for_each _ _) as [t [e|c]]; simpl; [done|].
  by rewrite app_nil_r.
Qed.

Lemma execute_first self w origin config notify a rest :
  ready w (_eventid self) origin config notify ->
  sorted (keys notify) = a :: rest ->
  execute self w =
  let r := loop_body self w config (aqms_eventid origin (_eventid self)) a in
  ((preamble w (_eventid self) ++ trace r)%list,
   match result r with inl e => inl e | inr _ => inr tt end).
Proof.
  intros Hready Hsorted. rewrite (execute_ready _ _ _ _ _ Hready), Hsorted.
  by rewrite for_each_cons_ends by apply loop_body_ends.
Qed.

(** What the loop body selects for an action that is configured. *)
Lemma select_command_result self config notify a action c :
  cancel self = Some c ->
  config !! "notify" = Some notify ->
  notify !! a = Some action ->
  result (select_command self config a) =
  match template c action with
  | Some cmd => inr (Some cmd)
  | None => if c then inr None else inl (KeyError "command")
  end.
Proof.
  intros Hc Hn Ha.
  unfold select_command, getattr_cancel, notify_action, getitem, template.
  rewrite Hc. unfold mbind, M_bind, mret, M_ret. simpl.
  destruct c; rewrite Hn; simpl; rewrite Ha; simpl.
  - case_decide as Hu.
    + destruct Hu as [cmd ->]. reflexivity.
    + destruct (action !! "undo_command") eqn:E; [|done].
      destruct Hu. by eexists.
  - by destruct (action !! "command").
Qed.

Lemma loop_body_selected self w config notify id a action c cmd :
  cancel self = Some c ->
  config !! "notify" = Some notify ->
  notify !! a = Some action ->
  template c action = Some cmd ->
  loop_body self w config id a = try_run w (command_argv cmd id).
Proof.
  intros Hc Hn Ha Ht. rewrite loop_body_split.
  by rewrite (select_command_result _ _ _ _ _ _ Hc Hn Ha), Ht.
Qed.

(** ** The derived event identifier *)

(** C1, as stated, fails: the identifier [UW1234] has the network id
    [UW] as a prefix, whatever the case, and yet it is derived unchanged,
    because only the network id is put in lower case before the test. *)
Lemma aqms_eventid_upper_case_kept :
  let origin := {| netid := "UW"; time := 0 |} in
  netid_prefix_ignoring_case origin "UW1234" = true /\
  aqms_eventid origin "UW1234" = "UW1234" /\
  aqms_eventid origin "UW1234" <> PyStr.slice_from 2 "UW1234".
Proof. by vm_compute. Qed.

(** The test of line 60 asks whether the network id occurs anywhere in
    the identifier, not whether the identifier starts with it: here the
    first two characters go although they are not the network id. *)
Example aqms_eventid_netid_inside :
  aqms_eventid {| netid := "UW"; time := 0 |} "12uw34" = "uw34".
Proof. reflexivity. Qed.

(** C1, amended: if the network id in lower case is a prefix of the
    identifier as it is written, the derived identifier is the
    identifier without its first two characters; if the network id in
    lower case occurs nowhere in the identifier, the derived identifier
    is the identifier unchanged. *)
Theorem aqms_eventid_by_netid (origin : Origin) (eventid : string) :
  (PyStr.startswith (PyStr.lower (netid origin)) eventid = true ->
   aqms_eventid origin eventid = PyStr.slice_from 2 eventid) /\
  (PyStr.contains (PyStr.lower (netid origin)) eventid = false ->
   aqms_eventid origin eventid = eventid).
Proof.
  unfold aqms_eventid. split.
  - intros H%startswith_contains. by rewrite H.
  - intros ->. reflexivity.
Qed.

Lemma aqms_eventid_by_netid_witness :
  aqms_eventid Demo.origin "uw1234" = "1234" /\
  aqms_eventid Demo.origin "ci5678" = "ci5678".
Proof.
  split.
  - apply (proj1 (aqms_eventid_by_netid Demo.origin "uw1234")). reflexivity.
  - apply (proj2 (aqms_eventid_by_netid Demo.origin "ci5678")). reflexivity.
Defined.

(** ** Missing event data *)

(** C3: without the data directory [execute] raises
    [NotADirectoryError], with the directory but without [event.xml] it
    raises [FileNotFoundError]; up to then only the paths have been
    resolved: the origin is not parsed, the notification configuration
    is not read and no subprocess is launched. *)
Theorem execute_missing_event_data (self : NotificationModule) (w : World)
    (install_path data_path : string) :
  get_config_paths w = inr (install_path, data_path) ->
  let datadir := os_path.join data_path [_eventid self; "current"] in
  let datafile := os_path.join datadir ["event.xml"] in
  (os_path_isdir w datadir = false ->
   execute self w =
   ([EvGetConfigPaths],
    inl (NotADirectoryError (datadir +:+ " is not a valid directory.")))) /\
  (os_path_isdir w datadir = true ->
   os_path_isfile w datafile = false ->
   execute self w =
   ([EvGetConfigPaths],
    inl (FileNotFoundError (datafile +:+ " does not exist.")))).
Proof.
  intros Hp datadir0 datafile0. unfold execute, call, mbind, M_bind.
  rewrite Hp. fold datadir0. fold datafile0. split.
  - intros ->. reflexivity.
  - intros -> ->. reflexivity.
Qed.

Lemma execute_missing_event_data_witness :
  let w := Demo.world Demo.notify (Demo.exits_with 0) in
  execute (__init__ "uw9" (Some false)) w =
    ([EvGetConfigPaths],
     inl (NotADirectoryError "/data/uw9/current is not a valid directory.")) /\
  execute (__init__ "uw77" (Some false)) w =
    ([EvGetConfigPaths],
     inl (FileNotFoundError "/data/uw77/current/event.xml does not exist.")).
Proof.
  split.
  - apply (proj1 (execute_missing_event_data (__init__ "uw9" (Some false))
             (Demo.world Demo.notify (Demo.exits_with 0))
             "/opt/shakemap" "/data" eq_refl)).
    reflexivity.
  - apply (proj2 (execute_missing_event_data (__init__ "uw77" (Some false))
             (Demo.world Demo.notify (Demo.exits_with 0))
             "/opt/shakemap" "/data" eq_refl)); reflexivity.
Defined.

(** ** One attempt per run *)

(** C9: whatever the configuration, the flag and the collaborators do,
    one call of [execute] launches at most one subprocess. *)
Theorem at_most_one_subprocess (self : NotificationModule) (w : World) :
  launches (trace (execute self w)) <= 1.
Proof.
  unfold execute, call, getitem, raise, mbind, M_bind.
  destruct (get_config_paths w) as [e|[ip dp]]; [unfold launches; simpl; lia|].
  destruct (os_path_isdir w _); simpl; [|unfold launches; simpl; lia].
  destruct (os_path_isfile w _); simpl; [|unfold launches; simpl; lia].
  destruct (Origin_fromFile w _) as [e|origin]; [unfold launches; simpl; lia|].
  destruct (get_aqms_config w) as [e|config]; [unfold launches; simpl; lia|].
  destruct (config !! "notify") as [notify|]; [|unfold launches; simpl; lia].
  pose proof (loop_launches self w config
                (aqms_eventid origin (_eventid self)) (sorted (keys notify))) as H.
  unfold mret, M_ret. simpl.
  destruct (for_each _ _) as [t [e|c]]; simpl in *;
    unfold launches in *; simpl; rewrite ?app_nil_r; exact H.
Qed.

(** ** The three ways the first pass through the loop ends *)

(** C2: when the flag is off and launching the command of the first
    action in sorted order raises an exception, [execute] logs two
    warnings, with the command and with the error, and returns normally;
    the launch that failed is the only one. *)
Theorem launch_failure_halts (self : NotificationModule) (w : World)
    (origin : Origin) (config : Config) (notify : gmap string (gmap string string))
    (a : string) (rest : list string) (action : gmap string string)
    (cmd : string) (err : PyExc) :
  ready w (_eventid self) origin config notify ->
  cancel self = Some false ->
  sorted (keys notify) = a :: rest ->
  notify !! a = Some action ->
  action !! "command" = Some cmd ->
  let argv := command_argv cmd (aqms_eventid origin (_eventid self)) in
  subprocess_run w argv = RunRaises err ->
  is_Exception err = true ->
  execute self w =
  ((preamble w (_eventid self) ++
    [EvRun argv;
     EvLogWarn "Error running command: %s" [ArgList argv];
     EvLogWarn "Error: %s" [ArgExc err]])%list,
   inr tt).
Proof.
  intros Hready Hc Hsorted Ha Hcmd argv Hrun Herr.
  rewrite (execute_first _ _ _ _ _ _ _ Hready Hsorted).
  destruct Hready as (_ & _ & _ & _ & _ & Hn).
  rewrite (loop_body_selected _ _ _ _ _ _ _ _ cmd Hc Hn Ha) by done.
  fold argv. unfold try_run. rewrite Hrun, Herr. reflexivity.
Qed.

Lemma launch_failure_halts_witness :
  execute (__init__ "uw1234" (Some false)) (Demo.world Demo.notify Demo.not_found) =
  ([EvGetConfigPaths; EvOriginFromFile "/data/uw1234/current/event.xml";
    EvGetAqmsConfig;
    EvRun ["alarm"; "-e"; "1234"; "--on"];
    EvLogWarn "Error running command: %s" [ArgList ["alarm"; "-e"; "1234"; "--on"]];
    EvLogWarn "Error: %s" [ArgExc (FileNotFoundError "alarm -e 1234 --on")]],
   inr tt).
Proof.
  apply (launch_failure_halts (__init__ "uw1234" (Some false))
           (Demo.world Demo.notify Demo.not_found) Demo.origin
           {[ "notify" := Demo.notify ]} Demo.notify
           "a_alarm" ["b_page"]
           {[ "command" := "alarm -e <EVENT> --on";
              "undo_command" := "alarm -e <EVENT> --off" ]}
           "alarm -e <EVENT> --on"
           (FileNotFoundError "alarm -e 1234 --on")).
  - unfold ready. split; [by eexists|]. repeat split; reflexivity.
  - reflexivity.
  - vm_compute. reflexivity.
  - vm_compute. reflexivity.
  - vm_compute. reflexivity.
  - vm_compute. reflexivity.
  - reflexivity.
Defined.

(** C4: when the flag is on and the first action in sorted order has no
    [undo_command], [execute] returns normally after the preamble:
    nothing is launched and nothing is logged, and no later action is
    looked at. *)
Theorem cancel_without_undo (self : NotificationModule) (w : World)
    (origin : Origin) (config : Config) (notify : gmap string (gmap string string))
    (a : string) (rest : list string) (action : gmap string string) :
  ready w (_eventid self) origin config notify ->
  cancel self = Some true ->
  sorted (keys notify) = a :: rest ->
  notify !! a = Some action ->
  action !! "undo_command" = None ->
  execute self w = (preamble w (_eventid self), inr tt).
Proof.
  intros Hready Hc Hsorted Ha Hu.
  rewrite (execute_first _ _ _ _ _ _ _ Hready Hsorted).
  destruct Hready as (_ & _ & _ & _ & _ & Hn).
  rewrite loop_body_split.
  rewrite (select_command_result _ _ _ _ _ _ Hc Hn Ha).
  unfold template. rewrite Hu. simpl. by rewrite ?app_nil_r.
Qed.

Lemma cancel_without_undo_witness :
  execute (__init__ "uw1234" (Some true))
          (Demo.world Demo.notify_no_undo (Demo.exits_with 0)) =
  ([EvGetConfigPaths; EvOriginFromFile "/data/uw1234/current/event.xml";
    EvGetAqmsConfig], inr tt).
Proof.
  apply (cancel_without_undo (__init__ "uw1234" (Some true))
           (Demo.world Demo.notify_no_undo (Demo.exits_with 0)) Demo.origin
           {[ "notify" := Demo.notify_no_undo ]} Demo.notify_no_undo
           "a_page" ["b_alarm"] {[ "command" := "page <EVENT>" ]}).
  - unfold ready. split; [by eexists|]. repeat split; reflexivity.
  - reflexivity.
  - vm_compute. reflexivity.
  - vm_compute. reflexivity.
  - vm_compute. reflexivity.
Defined.

(** C5: when the command of the first action in sorted order is
    launched and no exception is raised, [execute] logs the command line
    and the result and returns, whatever the return code is; nothing
    else is launched. *)
Theorem completed_run_returns (self : NotificationModule) (w : World)
    (origin : Origin) (config : Config) (notify : gmap string (gmap string string))
    (c : bool) (a : string) (rest : list string) (action : gmap string string)
    (cmd : string) (returncode : Z) (stdout : list Byte.byte) :
  ready w (_eventid self) origin config notify ->
  cancel self = Some c ->
  sorted (keys notify) = a :: rest ->
  notify !! a = Some action ->
  template c action = Some cmd ->
  let argv := command_argv cmd (aqms_eventid origin (_eventid self)) in
  subprocess_run w argv = Completed returncode stdout ->
  execute self w =
  ((preamble w (_eventid self) ++
    [EvRun argv;
     EvLogInfo "The command to we ran is: %s" [ArgStr (PyStr.join " " argv)];
     EvLogInfo "Return code: %d, stdout is: %s" [ArgInt returncode; ArgBytes stdout]])%list,
   inr tt).
Proof.
  intros Hready Hc Hsorted Ha Hcmd argv Hrun.
  rewrite (execute_first _ _ _ _ _ _ _ Hready Hsorted).
  destruct Hready as (_ & _ & _ & _ & _ & Hn).
  rewrite (loop_body_selected _ _ _ _ _ _ _ _ cmd Hc Hn Ha) by done.
  fold argv. unfold try_run. rewrite Hrun. reflexivity.
Qed.

Lemma completed_run_returns_witness :
  execute (__init__ "uw1234" (Some false))
          (Demo.world Demo.notify (Demo.exits_with 3)) =
  ([EvGetConfigPaths; EvOriginFromFile "/data/uw1234/current/event.xml";
    EvGetAqmsConfig;
    EvRun ["alarm"; "-e"; "1234"; "--on"];
    EvLogInfo "The command to we ran is: %s" [ArgStr "alarm -e 1234 --on"];
    EvLogInfo "Return code: %d, stdout is: %s" [ArgInt 3; ArgBytes []]],
   inr tt).
Proof.
  apply (completed_run_returns (__init__ "uw1234" (Some false))
           (Demo.world Demo.notify (Demo.exits_with 3)) Demo.origin
           {[ "notify" := Demo.notify ]} Demo.notify false
           "a_alarm" ["b_page"]
           {[ "command" := "alarm -e <EVENT> --on";
              "undo_command" := "alarm -e <EVENT> --off" ]}
           "alarm -e <EVENT> --on" 3 []).
  - unfold ready. split; [by eexists|]. repeat split; reflexivity.
  - reflexivity.
  - vm_compute. reflexivity.
  - vm_compute. reflexivity.
  - vm_compute. reflexivity.
  - vm_compute. reflexivity.
Defined.

(** ** The order of the actions *)

Lemma elem_of_keys {V} (d : gmap string V) k : k ∈ keys d <-> is_Some (d !! k).
Proof.
  unfold keys. rewrite list_elem_of_fmap. split.
  - intros ([k' v] & -> & H%elem_of_map_to_list). by eexists.
  - intros [v H]. exists (k, v). split; [done|]. by apply elem_of_map_to_list.
Qed.

Lemma sorted_StronglySorted l : StronglySorted String.le (sorted l).
Proof. apply (StronglySorted_merge_sort String.le). Qed.

Lemma elem_of_sorted l k : k ∈ sorted l <-> k ∈ l.
Proof. unfold sorted. by rewrite merge_sort_Permutation. Qed.

Lemma sorted_head_least l a rest k :
  sorted l = a :: rest -> k ∈ l -> String.le a k.
Proof.
  intros Hs Hk. apply elem_of_sorted in Hk. rewrite Hs in Hk.
  pose proof (sorted_StronglySorted l) as Hsorted. rewrite Hs in Hsorted.
  apply StronglySorted_inv in Hsorted as [_ Hall].
  apply elem_of_cons in Hk as [->|Hk]; [reflexivity|].
  rewrite List.Forall_forall in Hall. apply Hall. by apply list_elem_of_In.
Qed.

Lemma select_command_some self config notify a cmd :
  config !! "notify" = Some notify ->
  result (select_command self config a) = inr (Some cmd) ->
  exists c action,
    cancel self = Some c /\ notify !! a = Some action /\
    template c action = Some cmd.
Proof.
  intros Hn Hres.
  destruct (cancel self) as [c|] eqn:Hc; cycle 1.
  { unfold select_command, getattr_cancel in Hres. by rewrite Hc in Hres. }
  destruct (notify !! a) as [action|] eqn:Ha; cycle 1.
  { unfold select_command, getattr_cancel, notify_action, getitem in Hres.
    rewrite Hc in Hres. unfold mbind, M_bind, mret, M_ret in Hres.
    simpl in Hres. by destruct c; rewrite Hn in Hres; simpl in Hres;
      rewrite Ha in Hres. }
  exists c, action. repeat split.
  rewrite (select_command_result _ _ _ _ _ _ Hc Hn Ha) in Hres.
  destruct (template c action); [by simplify_eq|by destruct c].
Qed.

Lemma try_run_launched w cmd argv :
  EvRun argv ∈ trace (try_run w cmd) -> argv = cmd.
Proof.
  unfold try_run. destruct (subprocess_run w cmd) as [rc out|err];
    [|destruct (is_Exception err)]; simpl;
    rewrite !elem_of_cons, elem_of_nil; intuition congruence.
Qed.

Lemma sorted_keys_nonempty {V} (d : gmap string V) :
  d <> ∅ -> exists a rest, sorted (keys d) = a :: rest.
Proof.
  intros Hd. destruct (sorted (keys d)) as [|a rest] eqn:Hs; [|by eauto].
  destruct Hd. apply map_to_list_empty_iff.
  assert (keys d = []) as Hk.
  { apply Permutation_nil_r. rewrite <- Hs. unfold sorted.
    by rewrite merge_sort_Permutation. }
  unfold keys in Hk. by apply fmap_nil_inv in Hk.
Qed.

Lemma try_run_trace w cmd :
  exists tail, trace (try_run w cmd) = EvRun cmd :: tail.
Proof.
  unfold try_run. destruct (subprocess_run w cmd) as [rc out|err];
    [|destruct (is_Exception err)]; by eexists.
Qed.

(** C7: with at least one action configured, the one pass through the
    loop that [execute] makes is the pass for the action whose name is
    the least of all: the run is the preamble followed by the loop body
    at that name. So when the flag selects a template of that action,
    the first thing after the preamble is the launch of its command, and
    no command of any other action is launched. *)
Theorem actions_in_sorted_order (self : NotificationModule) (w : World)
    (origin : Origin) (config : Config) (notify : gmap string (gmap string string)) :
  ready w (_eventid self) origin config notify ->
  notify <> ∅ ->
  let id := aqms_eventid origin (_eventid self) in
  exists a,
    is_Some (notify !! a) /\
    (forall k, is_Some (notify !! k) -> String.le a k) /\
    execute self w =
      ((preamble w (_eventid self) ++
        trace (loop_body self w config id a))%list,
       match result (loop_body self w config id a) with
       | inl e => inl e
       | inr _ => inr tt
       end) /\
    (forall c action cmd,
       cancel self = Some c ->
       notify !! a = Some action ->
       template c action = Some cmd ->
       exists tail,
         trace (execute self w) =
         (preamble w (_eventid self) ++ EvRun (command_argv cmd id) :: tail)%list) /\
    (forall argv, EvRun argv ∈ trace (execute self w) ->
       exists action cmd,
         notify !! a = Some action /\
         (action !! "command" = Some cmd \/ action !! "undo_command" = Some cmd) /\
         argv = command_argv cmd id).
Proof.
  intros Hready Hne id.
  destruct (sorted_keys_nonempty _ Hne) as (a & rest & Hs).
  pose proof (execute_first _ _ _ _ _ _ _ Hready Hs) as Hexec.
  fold id in Hexec. cbn zeta in Hexec.
  assert (is_Some (notify !! a)) as Hsome.
  { apply elem_of_keys, elem_of_sorted. rewrite Hs. by left. }
  exists a. split; [done|]. split.
  { intros k Hk. eapply sorted_head_least; [done|]. by apply elem_of_keys. }
  split; [done|].
  destruct Hready as (_ & _ & _ & _ & _ & Hn). split.
  - intros c action cmd Hc Ha Ht. rewrite Hexec.
    rewrite (loop_body_selected _ _ _ _ _ _ _ _ cmd Hc Hn Ha Ht).
    destruct (try_run_trace w (command_argv cmd id)) as [tail Htail].
    exists tail. unfold trace at 1. cbn [fst]. by rewrite Htail.
  - intros argv Hrun. rewrite Hexec in Hrun.
    unfold trace at 1 in Hrun. cbn [fst] in Hrun.
    apply elem_of_app in Hrun as [Hrun|Hrun].
    { unfold preamble in Hrun. rewrite !elem_of_cons, elem_of_nil in Hrun.
      intuition congruence. }
    rewrite loop_body_split in Hrun.
    destruct (result (select_command self config a)) as [e|[cmd|]] eqn:Hsel;
      try (by apply elem_of_nil in Hrun).
    apply try_run_launched in Hrun.
    destruct (select_command_some _ _ _ _ _ Hn Hsel) as (c & action & Hc & Ha & Ht).
    exists action, cmd. split; [done|]. split; [|done].
    unfold template in Ht. destruct c; auto.
Qed.

Lemma actions_in_sorted_order_witness :
  exists a,
    is_Some (Demo.notify !! a) /\
    (forall k, is_Some (Demo.notify !! k) -> String.le a k) /\
    execute (__init__ "uw1234" (Some false))
            (Demo.world Demo.notify (Demo.exits_with 0)) =
      ((preamble (Demo.world Demo.notify (Demo.exits_with 0)) "uw1234" ++
        trace (loop_body (__init__ "uw1234" (Some false))
                 (Demo.world Demo.notify (Demo.exits_with 0))
                 {[ "notify" := Demo.notify ]}
                 (aqms_eventid Demo.origin "uw1234") a))%list,
       match result (loop_body (__init__ "uw1234" (Some false))
                       (Demo.world Demo.notify (Demo.exits_with 0))
                       {[ "notify" := Demo.notify ]}
                       (aqms_eventid Demo.origin "uw1234") a) with
       | inl e => inl e
       | inr _ => inr tt
       end) /\
    (forall c action cmd,
       Some false = Some c ->
       Demo.notify !! a = Some action ->
       template c action = Some cmd ->
       exists tail,
         trace (execute (__init__ "uw1234" (Some false))
                  (Demo.world Demo.notify (Demo.exits_with 0))) =
         (preamble (Demo.world Demo.notify (Demo.exits_with 0)) "uw1234" ++
          EvRun (command_argv cmd (aqms_eventid Demo.origin "uw1234")) :: tail)%list) /\
    (forall argv,
       EvRun argv ∈ trace (execute (__init__ "uw1234" (Some false))
                             (Demo.world Demo.notify (Demo.exits_with 0))) ->
       exists action cmd,
         Demo.notify !! a = Some action /\
         (action !! "command" = Some cmd \/ action !! "undo_command" = Some cmd) /\
         argv = command_argv cmd (aqms_eventid Demo.origin "uw1234")).
Proof.
  apply (actions_in_sorted_order (__init__ "uw1234" (Some false))
           (Demo.world Demo.notify (Demo.exits_with 0)) Demo.origin
           {[ "notify" := Demo.notify ]} Demo.notify).
  - unfold ready. split; [by eexists|]. repeat split; reflexivity.
  - intros H. apply (f_equal (fun m => m !! "a_alarm")) in H.
    vm_compute in H. discriminate H.
Defined.

(** ** The flag that was never set *)

Lemma try_run_no_AttributeError w cmd name :
  result (try_run w cmd) <> inl (AttributeError name).
Proof.
  unfold try_run. destruct (subprocess_run w cmd) as [rc out|err]; [done|].
  destruct err; simpl; congruence.
Qed.

(** C10: an instance made with [cancel=None] has no attribute [cancel],
    and with the event data there and a notification configuration that
    is not empty, [execute] on it raises [AttributeError] in the first
    pass through the loop, before anything is launched; on the instance
    that [parseArgs] leaves, [execute] does not raise that error. *)
Theorem execute_without_cancel (eventid : string) (w : World)
    (origin : Origin) (config : Config) (notify : gmap string (gmap string string)) :
  ready w eventid origin config notify ->
  notify <> ∅ ->
  cancel (__init__ eventid None) = None /\
  execute (__init__ eventid None) w =
    (preamble w eventid, inl (AttributeError "cancel")) /\
  (forall arglist self rem,
     parseArgs (__init__ eventid None) arglist = Some (inr (self, rem)) ->
     result (execute self w) <> inl (AttributeError "cancel")).
Proof.
  intros Hready Hne. split; [done|].
  destruct (sorted_keys_nonempty _ Hne) as (a & rest & Hs). split.
  - rewrite (execute_first (__init__ eventid None) _ _ _ _ _ _ Hready Hs).
    rewrite loop_body_split. simpl. by rewrite ?app_nil_r.
  - intros arglist self rem' Hparse.
    unfold parseArgs in Hparse.
    destruct (argparse.parse_args arglist) as [[e|ns]|]; simplify_eq/=.
    set (self := {| _eventid := eventid; cancel := Some (argparse.ns_cancel ns) |}).
    rewrite (execute_first self _ _ _ _ _ _ Hready Hs). simpl.
    rewrite loop_body_split.
    destruct Hready as (_ & _ & _ & _ & _ & Hn).
    assert (is_Some (notify !! a)) as [action Ha].
    { apply elem_of_keys, elem_of_sorted. rewrite Hs. by left. }
    rewrite (select_command_result self _ _ _ _ (argparse.ns_cancel ns) eq_refl Hn Ha).
    destruct (template _ action) as [cmd|].
    + pose proof (try_run_no_AttributeError w
        (command_argv cmd (aqms_eventid origin eventid)) "cancel") as H.
      destruct (result (try_run _ _)) as [e|c]; [congruence|done].
    + by destruct (argparse.ns_cancel ns).
Qed.

Lemma execute_without_cancel_witness :
  let w := Demo.world Demo.notify (Demo.exits_with 0) in
  cancel (__init__ "uw1234" None) = None /\
  execute (__init__ "uw1234" None) w =
    (preamble w "uw1234", inl (AttributeError "cancel")) /\
  (forall arglist self rem,
     parseArgs (__init__ "uw1234" None) arglist = Some (inr (self, rem)) ->
     result (execute self w) <> inl (AttributeError "cancel")).
Proof.
  apply (execute_without_cancel "uw1234"
           (Demo.world Demo.notify (Demo.exits_with 0)) Demo.origin
           {[ "notify" := Demo.notify ]} Demo.notify).
  - unfold ready. split; [by eexists|]. repeat split; reflexivity.
  - intros H. apply (f_equal (fun m => m !! "a_alarm")) in H.
    vm_compute in H. discriminate H.
Defined.

(** ** The placeholder *)

Lemma contains_cons sub c s :
  PyStr.contains sub (String c s) =
  PyStr.startswith sub (String c s) || PyStr.contains sub s.
Proof. reflexivity. Qed.

Lemma slice_from_length n s :
  String.length (PyStr.slice_from n s) = String.length s - n.
Proof.
  revert s. induction n as [|n IH]; intros [|c s]; simpl; auto with lia.
Qed.

Lemma join_cons sep x y l :
  PyStr.join sep (x :: y :: l) = x +:+ sep +:+ PyStr.join sep (y :: l).
Proof. reflexivity. Qed.

Lemma startswith_app m a b :
  PyStr.startswith m a = true -> PyStr.startswith m (a +:+ b) = true.
Proof.
  revert a. induction m as [|c m IH]; intros [|d a]; simpl; try done.
  intros [-> H]%andb_true_iff. by rewrite (IH _ H).
Qed.

Lemma startswith_split m s :
  PyStr.startswith m s = true ->
  s = m +:+ PyStr.slice_from (String.length m) s.
Proof.
  revert s. induction m as [|c m IH]; intros [|d s]; simpl; try done.
  intros [Hc H]%andb_true_iff. apply Ascii.eqb_eq in Hc as ->.
  change (String d m +:+ ?x) with (String d (m +:+ x)). f_equal. by apply IH.
Qed.

(** The placeholder does not overlap itself: an occurrence at the start
    of [q ++ "<EVENT>" ++ rest] lies within [q], unless [q] is empty. *)
Lemma placeholder_no_overlap q rest :
  PyStr.startswith "<EVENT>" (q +:+ "<EVENT>" +:+ rest) = true ->
  q = "" \/ PyStr.startswith "<EVENT>" q = true.
Proof.
  intros H.
  destruct q as [|c1 [|c2 [|c3 [|c4 [|c5 [|c6 [|c7 q]]]]]]]; [by left|..];
    right; cbv [String.append PyStr.startswith] in H |- *;
    repeat match goal with
           | H : _ && _ = true |- _ => apply andb_true_iff in H as [? H]
           end;
    try done.
  repeat (apply andb_true_iff; split); done.
Qed.

Lemma replace_ne_free new p :
  placeholder_free p -> PyStr.replace_ne "<EVENT>" new p = p.
Proof.
  unfold placeholder_free.
  induction p as [|c p IH]; intros H; simp replace_ne; [done|].
  rewrite contains_cons in H. apply orb_false_iff in H as [H1 H2].
  rewrite H1. f_equal. by apply IH.
Qed.

Lemma replace_ne_piece new p rest :
  placeholder_free p ->
  PyStr.replace_ne "<EVENT>" new (p +:+ "<EVENT>" +:+ rest) =
  p +:+ new +:+ PyStr.replace_ne "<EVENT>" new rest.
Proof.
  unfold placeholder_free.
  induction p as [|c p IH]; intros H.
  - change ("" +:+ "<EVENT>" +:+ rest) with (String "<" ("EVENT>" +:+ rest)).
    simp replace_ne. reflexivity.
  - rewrite contains_cons in H. apply orb_false_iff in H as [H1 H2].
    change (String c p +:+ ?x) with (String c (p +:+ x)).
    simp replace_ne.
    destruct (PyStr.startswith "<EVENT>" (String c (p +:+ "<EVENT>" +:+ rest)))
      eqn:E.
    + apply (placeholder_no_overlap (String c p) rest) in E as [E|E];
        [done|congruence].
    + f_equal. by apply IH.
Qed.

(** Replacing in a template that is cut into placeholder-free pieces
    joins the pieces with the new text. *)
Lemma replace_ne_join new ps :
  Forall placeholder_free ps ->
  PyStr.replace_ne "<EVENT>" new (PyStr.join "<EVENT>" ps) = PyStr.join new ps.
Proof.
  induction 1 as [|p ps Hp Hps IH]; [by simp replace_ne|].
  destruct ps as [|p' ps]; [by apply replace_ne_free|].
  rewrite !join_cons, replace_ne_piece by done. by rewrite IH.
Qed.

(** Every template is cut into such pieces by its placeholders. *)
Lemma template_pieces s :
  exists p ps, s = PyStr.join "<EVENT>" (p :: ps) /\
               Forall placeholder_free (p :: ps).
Proof.
  remember (String.length s) as n eqn:Hn. revert s Hn.
  induction n as [n IH] using lt_wf_ind. intros s ->.
  assert (forall s', String.length s' < String.length s ->
            exists p ps, s' = PyStr.join "<EVENT>" (p :: ps) /\
                         Forall placeholder_free (p :: ps)) as IH'.
  { intros s' Hlt. by apply (IH _ Hlt s'). }
  clear IH. destruct s as [|c s].
  { exists "", []. split; [done|]. by repeat constructor. }
  destruct (PyStr.startswith "<EVENT>" (String c s)) eqn:E.
  - pose proof (startswith_split _ _ E) as Hs.
    destruct (IH' (PyStr.slice_from (String.length "<EVENT>") (String c s)))
      as (p & ps & Heq & Hfree).
    { rewrite slice_from_length. simpl. lia. }
    exists "", (p :: ps). split.
    + rewrite join_cons, <- Heq. exact Hs.
    + constructor; [done|exact Hfree].
  - destruct (IH' s) as (p & ps & Heq & Hfree); [simpl; lia|].
    exists (String c p), ps. split.
    + rewrite Heq. by destruct ps.
    + pose proof (Forall_inv Hfree) as Hp.
      pose proof (Forall_inv_tail Hfree) as Hps. constructor; [|done].
      unfold placeholder_free in *. rewrite contains_cons, Hp, orb_false_r.
      destruct (PyStr.startswith "<EVENT>" (String c p)) eqn:E'; [|done].
      rewrite <- E, Heq. destruct ps as [|p' ps]; [done|].
      rewrite join_cons. symmetry.
      by apply (startswith_app "<EVENT>" (String c p)).
Qed.

(** C6: a template is the join by [<EVENT>] of pieces in which [<EVENT>]
    does not occur, and however it is cut into such pieces, the argument
    vector is the whitespace split of the pieces joined by the derived
    event identifier: every occurrence is replaced, and the split is
    taken after the replacement. *)
Theorem placeholder_replaced_before_split (cmd id : string) :
  (exists ps, cmd = PyStr.join "<EVENT>" ps /\ Forall placeholder_free ps) /\
  (forall ps, cmd = PyStr.join "<EVENT>" ps -> Forall placeholder_free ps ->
     command_argv cmd id = PyStr.split (PyStr.join id ps)).
Proof.
  split.
  - destruct (template_pieces cmd) as (p & ps & Heq & Hfree). by exists (p :: ps).
  - intros ps -> Hfree. unfold command_argv, PyStr.replace.
    rewrite decide_False by done. by rewrite replace_ne_join.
Qed.

Lemma placeholder_replaced_before_split_witness :
  command_argv "alarm -e <EVENT> --log=<EVENT>.log" "1234" =
  ["alarm"; "-e"; "1234"; "--log=1234.log"].
Proof.
  apply (proj2 (placeholder_replaced_before_split
                  "alarm -e <EVENT> --log=<EVENT>.log" "1234")
               ["alarm -e "; " --log="; ".log"]).
  - reflexivity.
  - repeat constructor.
Defined.

(** The order of the two steps shows when the identifier holds white
    space: it is split along with the rest. *)
Example split_after_replace :
  command_argv "page <EVENT>" "12 34" = ["page"; "12"; "34"].
Proof. reflexivity. Qed.

(** ** Parsing the command line *)

Lemma arg_classes_length l cs :
  argparse.arg_classes l = Some cs -> length cs = length l.
Proof.
  revert cs. induction l as [|a l IH]; intros cs; simpl; [by intros [= <-]|].
  case_decide; [intros [= <-]; simpl; by rewrite length_map|].
  destruct (argparse._parse_optional a) as [c|]; simpl; [|done].
  destruct (argparse.arg_classes l) as [cs'|]; simpl; [|done].
  intros [= <-]. simpl. f_equal. by apply IH.
Qed.

(** Only a string that starts with [--=] is ambiguous. *)
Lemma _parse_optional_is_Some a :
  a <> "--" -> PyStr.startswith "--=" a = false ->
  is_Some (argparse._parse_optional a).
Proof.
  intros Hdd Heq. unfold argparse._parse_optional.
  destruct a as [|c rest]; [by eexists|].
  destruct (negb (Ascii.eqb c "-")) eqn:Hc; [by eexists|].
  apply negb_false_iff, Ascii.eqb_eq in Hc as ->.
  destruct (argparse.option_string_actions _); [by eexists|].
  case_decide; [by eexists|].
  destruct rest as [|d t]; [done|].
  destruct (PyStr.startswith "-" (String d t)) eqn:Hd; cycle 1.
  { destruct (_ || _); by eexists. }
  cbn [PyStr.startswith] in Hd. rewrite andb_true_r in Hd.
  apply Ascii.eqb_eq in Hd as <-.
  case_decide as Hp; [|destruct (_ || _); by eexists].
  exfalso. destruct t as [|e t]; [done|].
  cbn [argparse.before_eq] in Hp.
  change (Ascii.eqb "-" "=") with false in Hp. cbn iota in Hp.
  destruct (Ascii.eqb e "=") eqn:He; [|done].
  apply Ascii.eqb_eq in He as ->. done.
Qed.

Lemma arg_classes_is_Some l :
  Forall (fun a => PyStr.startswith "--=" a = false) l ->
  is_Some (argparse.arg_classes l).
Proof.
  induction 1 as [|a l Ha Hl IH]; simpl; [by eexists|].
  case_decide as Hdd; [by eexists|].
  destruct (_parse_optional_is_Some a Hdd Ha) as [c ->].
  destruct IH as [cs ->]. by eexists.
Qed.

(** At a string that does not start with a dash, or at the end, [rem]
    takes all that is left. *)
Lemma consume_remainder c rest cs :
  argparse.arg_classes rest = Some cs ->
  match rest with [] => True | a :: _ => PyStr.startswith "-" a = false end ->
  argparse.consume c [] (zip cs rest) =
  Some (inr {| argparse.ns_cancel := c; argparse.rem := rest |}).
Proof.
  intros Hcs Hhead. pose proof (arg_classes_length _ _ Hcs) as Hlen.
  assert ((zip cs rest).*2 = rest) as Hsnd by (apply snd_zip; lia).
  destruct rest as [|a rest]; [by destruct cs|].
  destruct cs as [|k cs]; [done|].
  simpl in Hcs. case_decide as Hdd; [by subst a|].
  assert (argparse._parse_optional a = Some argparse.Positional) as Hpos.
  { unfold argparse._parse_optional. destruct a as [|x a]; [done|].
    cbn [PyStr.startswith] in Hhead. rewrite andb_true_r in Hhead.
    by rewrite Ascii.eqb_sym, Hhead. }
  rewrite Hpos in Hcs. simpl in Hcs.
  destruct (argparse.arg_classes rest); simplify_eq/=.
  by rewrite Hsnd.
Qed.

Lemma parse_args_flags flags rest :
  Forall (fun a => a = "-c" \/ a = "--cancel") flags ->
  match rest with [] => True | a :: _ => PyStr.startswith "-" a = false end ->
  Forall (fun a => PyStr.startswith "--=" a = false) rest ->
  exists cs,
    argparse.arg_classes (flags ++ rest) = Some cs /\
    forall c, argparse.consume c [] (zip cs (flags ++ rest)) =
      Some (inr {| argparse.ns_cancel := c || bool_decide (flags <> []);
                   argparse.rem := rest |}).
Proof.
  intros Hflags Hhead Hrest.
  induction Hflags as [|a flags Ha Hflags IH].
  - destruct (arg_classes_is_Some _ Hrest) as [cs Hcs]. exists cs.
    split; [done|]. intros c. simpl. rewrite orb_false_r.
    by apply consume_remainder.
  - destruct IH as (cs & Hcs & Hcons).
    exists (argparse.Optional argparse.act_cancel :: cs). split.
    + destruct Ha as [-> | ->]; simpl; by rewrite Hcs.
    + intros c. simpl. rewrite Hcons. simpl. by rewrite orb_true_r.
Qed.

(** C8, as stated, fails: in this argument list [-c] is present, and
    the flag stays off; the whole list is left for the modules that
    follow, to which the [-c] belongs. *)
Lemma parseArgs_cancel_after_positional :
  "-c" ∈ ["assemble"; "-c"; "note"] /\
  parseArgs (__init__ "uw1234" (Some false)) ["assemble"; "-c"; "note"] =
  Some (inr ({| _eventid := "uw1234"; cancel := Some false |},
             ["assemble"; "-c"; "note"])).
Proof. split; [|reflexivity]. right. left. Qed.

(** C8, amended: for an argument list made of this module's flags, each
    [-c] or [--cancel], followed by a remainder that is empty or starts
    with a string without a leading dash (and in which no string starts
    with [--=]), [parseArgs] sets the flag to true exactly when there is
    at least one flag before the remainder, and returns the remainder
    unchanged, with any [-c] or [--cancel] in it. *)
Theorem parseArgs_flags_then_remainder (self : NotificationModule)
    (flags rest : list string) :
  Forall (fun a => a = "-c" \/ a = "--cancel") flags ->
  match rest with [] => True | a :: _ => PyStr.startswith "-" a = false end ->
  Forall (fun a => PyStr.startswith "--=" a = false) rest ->
  parseArgs self (flags ++ rest) =
  Some (inr ({| _eventid := _eventid self;
                cancel := Some (bool_decide (flags <> [])) |}, rest)).
Proof.
  intros Hflags Hhead Hrest.
  destruct (parse_args_flags _ _ Hflags Hhead Hrest) as (cs & Hcs & Hcons).
  unfold parseArgs, argparse.parse_args. rewrite Hcs. simpl.
  rewrite Hcons. reflexivity.
Qed.

Lemma parseArgs_flags_then_remainder_witness :
  parseArgs (__init__ "uw1234" None) ["--cancel"; "assemble"; "-c"; "note"] =
  Some (inr ({| _eventid := "uw1234"; cancel := Some true |},
             ["assemble"; "-c"; "note"])) /\
  parseArgs (__init__ "uw1234" None) ["select"; "assemble"] =
  Some (inr ({| _eventid := "uw1234"; cancel := Some false |},
             ["select"; "assemble"])).
Proof.
  split.
  - apply (parseArgs_flags_then_remainder (__init__ "uw1234" None)
             ["--cancel"] ["assemble"; "-c"; "note"]).
    + constructor; [right; reflexivity | constructor].
    + reflexivity.
    + repeat constructor.
  - apply (parseArgs_flags_then_remainder (__init__ "uw1234" None)
             [] ["select"; "assemble"]).
    + constructor.
    + reflexivity.
    + repeat constructor.
Defined.

(** Other argument lists: an option put before the next module's name
    that is not this module's makes the parser exit, and [--help] makes
    it print the help and exit. *)
Example parseArgs_unrecognized :
  parseArgs (__init__ "uw1234" (Some false)) ["--verbose"; "assemble"] =
  Some (inl (SystemExit 2)).
Proof. reflexivity. Qed.

Example parseArgs_help :
  parseArgs (__init__ "uw1234" (Some false)) ["-c"; "--help"] =
  Some (inl (SystemExit 0)).
Proof. reflexivity. Qed.

(** ** Further properties of [execute] *)

Lemma logs_app t1 t2 : logs (t1 ++ t2) = logs t1 + logs t2.
Proof. unfold logs. by rewrite filter_app, length_app. Qed.

(** A run either fails before the loop, with nothing launched and
    nothing logged, or finds the event data and the [notify] section. *)
Lemma execute_shape self w :
  (exists t e, execute self w = (t, inl e) /\ launches t = 0 /\ logs t = 0) \/
  (exists origin config notify, ready w (_eventid self) origin config notify).
Proof.
  unfold execute, call, getitem, raise, mbind, M_bind.
  destruct (get_config_paths w) as [e|[ip dp]] eqn:Hp; [left; by eauto|].
  destruct (os_path_isdir w _) eqn:Hdir; simpl; [|left; by eauto].
  destruct (os_path_isfile w _) eqn:Hfile; simpl; [|left; by eauto].
  destruct (Origin_fromFile w _) as [e|origin] eqn:Ho; [left; by eauto|].
  destruct (get_aqms_config w) as [e|config] eqn:Hc; [left; by eauto|].
  destruct (config !! "notify") as [notify|] eqn:Hn; [|left; by eauto].
  right. exists origin, config, notify.
  unfold ready, datafile, datadir. rewrite Hp. by eauto 10.
Qed.

Lemma try_run_raises w cmd e :
  result (try_run w cmd) = inl e ->
  is_Exception e = false /\ subprocess_run w cmd = RunRaises e /\
  trace (try_run w cmd) = [EvRun cmd].
Proof.
  unfold try_run. destruct (subprocess_run w cmd) as [rc out|err]; [done|].
  destruct (is_Exception err) eqn:E; [done|]. by intros [= <-].
Qed.

Lemma try_run_logs w cmd : logs (trace (try_run w cmd)) <= 2.
Proof.
  unfold try_run. destruct (subprocess_run w cmd) as [rc out|err];
    [|destruct (is_Exception err)]; unfold logs; simpl; lia.
Qed.

(** X1: with the flag off, an action without a [command] makes [execute]
    raise [KeyError] for that key, outside the [try]: nothing is
    launched and nothing is logged. *)
Theorem missing_command_raises (self : NotificationModule) (w : World)
    (origin : Origin) (config : Config) (notify : gmap string (gmap string string))
    (a : string) (rest : list string) (action : gmap string string) :
  ready w (_eventid self) origin config notify ->
  cancel self = Some false ->
  sorted (keys notify) = a :: rest ->
  notify !! a = Some action ->
  action !! "command" = None ->
  execute self w = (preamble w (_eventid self), inl (KeyError "command")).
Proof.
  intros Hready Hc Hsorted Ha Hcmd.
  rewrite (execute_first _ _ _ _ _ _ _ Hready Hsorted).
  destruct Hready as (_ & _ & _ & _ & _ & Hn).
  rewrite loop_body_split, (select_command_result _ _ _ _ _ _ Hc Hn Ha).
  unfold template. rewrite Hcmd. simpl. by rewrite ?app_nil_r.
Qed.

Lemma missing_command_raises_witness :
  execute (__init__ "uw1234" (Some false))
          (Demo.world Faulty.notify_undo_only (Demo.exits_with 0)) =
  ([EvGetConfigPaths; EvOriginFromFile "/data/uw1234/current/event.xml";
    EvGetAqmsConfig], inl (KeyError "command")).
Proof.
  apply (missing_command_raises (__init__ "uw1234" (Some false))
           (Demo.world Faulty.notify_undo_only (Demo.exits_with 0)) Demo.origin
           {[ "notify" := Faulty.notify_undo_only ]} Faulty.notify_undo_only
           "a_alarm" [] {[ "undo_command" := "alarm -e <EVENT> --off" ]}).
  - unfold ready. split; [by eexists|]. repeat split; reflexivity.
  - reflexivity.
  - vm_compute. reflexivity.
  - vm_compute. reflexivity.
  - vm_compute. reflexivity.
Defined.

(** X2: a configuration without a [notify] section makes [execute]
    raise [KeyError] for it, once the configuration is read and before
    the flag is looked at. *)
Theorem missing_notify_raises (self : NotificationModule) (w : World)
    (paths : string * string) (origin : Origin) (config : Config) :
  get_config_paths w = inr paths ->
  os_path_isdir w (datadir w (_eventid self)) = true ->
  os_path_isfile w (datafile w (_eventid self)) = true ->
  Origin_fromFile w (datafile w (_eventid self)) = inr origin ->
  get_aqms_config w = inr config ->
  config !! "notify" = None ->
  execute self w = (preamble w (_eventid self), inl (KeyError "notify")).
Proof.
  intros Hp Hdir Hfile Ho Hc Hn. destruct paths as [ip dp].
  unfold execute, preamble, datafile, datadir in *.
  rewrite Hp in *. unfold call, mbind, M_bind. simpl.
  rewrite Hdir. simpl. rewrite Hfile. simpl. rewrite Ho, Hc.
  unfold getitem. by rewrite Hn.
Qed.

Lemma missing_notify_raises_witness :
  execute (__init__ "uw1234" None) Faulty.no_notify =
  ([EvGetConfigPaths; EvOriginFromFile "/data/uw1234/current/event.xml";
    EvGetAqmsConfig], inl (KeyError "notify")).
Proof.
  apply (missing_notify_raises (__init__ "uw1234" None) Faulty.no_notify
           ("/opt/shakemap", "/data") Demo.origin {[ "dbs" := ∅ ]});
    reflexivity.
Defined.

(** X3: with an empty [notify] section the loop body never runs:
    [execute] returns normally after the preamble, also on an instance
    that has no attribute [cancel]. *)
Theorem empty_notify_returns (self : NotificationModule) (w : World)
    (origin : Origin) (config : Config) :
  ready w (_eventid self) origin config ∅ ->
  execute self w = (preamble w (_eventid self), inr tt).
Proof.
  intros Hready. rewrite (execute_ready _ _ _ _ _ Hready).
  unfold keys. rewrite map_to_list_empty. simpl. by rewrite ?app_nil_r.
Qed.

Lemma empty_notify_returns_witness :
  execute (__init__ "uw1234" None) (Demo.world ∅ (Demo.exits_with 0)) =
  ([EvGetConfigPaths; EvOriginFromFile "/data/uw1234/current/event.xml";
    EvGetAqmsConfig], inr tt).
Proof.
  apply (empty_notify_returns (__init__ "uw1234" None)
           (Demo.world ∅ (Demo.exits_with 0)) Demo.origin {[ "notify" := ∅ ]}).
  unfold ready. split; [by eexists|]. repeat split; reflexivity.
Defined.

(** X4: what [subprocess.run] raises outside the class [Exception] (a
    keyboard interrupt, an exit) is not caught: it leaves [execute]
    right after the launch, and no warning is logged. *)
Theorem base_exception_propagates (self : NotificationModule) (w : World)
    (origin : Origin) (config : Config) (notify : gmap string (gmap string string))
    (c : bool) (a : string) (rest : list string) (action : gmap string string)
    (cmd : string) (err : PyExc) :
  ready w (_eventid self) origin config notify ->
  cancel self = Some c ->
  sorted (keys notify) = a :: rest ->
  notify !! a = Some action ->
  template c action = Some cmd ->
  let argv := command_argv cmd (aqms_eventid origin (_eventid self)) in
  subprocess_run w argv = RunRaises err ->
  is_Exception err = false ->
  execute self w = ((preamble w (_eventid self) ++ [EvRun argv])%list, inl err).
Proof.
  intros Hready Hc Hsorted Ha Hcmd argv Hrun Herr.
  rewrite (execute_first _ _ _ _ _ _ _ Hready Hsorted).
  destruct Hready as (_ & _ & _ & _ & _ & Hn).
  rewrite (loop_body_selected _ _ _ _ _ _ _ _ cmd Hc Hn Ha) by done.
  fold argv. unfold try_run. rewrite Hrun, Herr. reflexivity.
Qed.

Lemma base_exception_propagates_witness :
  execute (__init__ "uw1234" (Some true))
          (Demo.world Demo.notify Faulty.interrupted) =
  ([EvGetConfigPaths; EvOriginFromFile "/data/uw1234/current/event.xml";
    EvGetAqmsConfig; EvRun ["alarm"; "-e"; "1234"; "--off"]],
   inl KeyboardInterrupt).
Proof.
  apply (base_exception_propagates (__init__ "uw1234" (Some true))
           (Demo.world Demo.notify Faulty.interrupted) Demo.origin
           {[ "notify" := Demo.notify ]} Demo.notify true
           "a_alarm" ["b_page"]
           {[ "command" := "alarm -e <EVENT> --on";
              "undo_command" := "alarm -e <EVENT> --off" ]}
           "alarm -e <EVENT> --off" KeyboardInterrupt).
  - unfold ready. split; [by eexists|]. repeat split; reflexivity.
  - reflexivity.
  - vm_compute. reflexivity.
  - vm_compute. reflexivity.
  - vm_compute. reflexivity.
  - vm_compute. reflexivity.
  - reflexivity.
Defined.

(** X5: what a collaborator raises leaves [execute] unchanged, and the
    collaborators after it are not called: a failure to resolve the
    paths comes before everything, a failure to parse the origin before
    the configuration is read, a failure to read the configuration
    before the loop. *)
Theorem collaborator_errors_propagate (self : NotificationModule) (w : World)
    (e : PyExc) :
  (get_config_paths w = inl e ->
   execute self w = ([EvGetConfigPaths], inl e)) /\
  (forall paths,
     get_config_paths w = inr paths ->
     os_path_isdir w (datadir w (_eventid self)) = true ->
     os_path_isfile w (datafile w (_eventid self)) = true ->
     (Origin_fromFile w (datafile w (_eventid self)) = inl e ->
      execute self w =
      ([EvGetConfigPaths; EvOriginFromFile (datafile w (_eventid self))], inl e)) /\
     (forall origin,
        Origin_fromFile w (datafile w (_eventid self)) = inr origin ->
        get_aqms_config w = inl e ->
        execute self w = (preamble w (_eventid self), inl e))).
Proof.
  split.
  - intros Hp. unfold execute, call, mbind, M_bind. by rewrite Hp.
  - intros [ip dp] Hp Hdir Hfile.
    unfold execute, preamble, datafile, datadir in *.
    rewrite Hp in *. unfold call, mbind, M_bind. simpl.
    rewrite Hdir. simpl. rewrite Hfile. simpl. split.
    + by intros ->.
    + intros origin -> ->. reflexivity.
Qed.

Lemma collaborator_errors_propagate_witness :
  execute (__init__ "uw1234" (Some false)) Faulty.no_profile =
    ([EvGetConfigPaths], inl (RuntimeError "no profile")) /\
  execute (__init__ "uw1234" (Some false)) Faulty.bad_origin =
    ([EvGetConfigPaths; EvOriginFromFile "/data/uw1234/current/event.xml"],
     inl (KeyError "netid")) /\
  execute (__init__ "uw1234" (Some false)) Faulty.bad_config =
    ([EvGetConfigPaths; EvOriginFromFile "/data/uw1234/current/event.xml";
      EvGetAqmsConfig], inl (FileNotFoundError "aqms.conf")).
Proof.
  split; [|split].
  - apply (proj1 (collaborator_errors_propagate (__init__ "uw1234" (Some false))
                    Faulty.no_profile (RuntimeError "no profile"))).
    reflexivity.
  - apply (proj1 (proj2 (collaborator_errors_propagate
                           (__init__ "uw1234" (Some false))
                           Faulty.bad_origin (KeyError "netid"))
                        ("/opt/shakemap", "/data") eq_refl eq_refl eq_refl)).
    reflexivity.
  - apply (proj2 (proj2 (collaborator_errors_propagate
                           (__init__ "uw1234" (Some false))
                           Faulty.bad_config (FileNotFoundError "aqms.conf"))
                        ("/opt/shakemap", "/data") eq_refl eq_refl eq_refl)
                 Demo.origin); reflexivity.
Defined.

(** X6: an error of class [Exception] that leaves [execute] arose
    before any launch: a launch that fails with such an error is never
    passed on, and a run that ends with one has launched and logged
    nothing. *)
Theorem exception_means_no_launch (self : NotificationModule) (w : World)
    (e : PyExc) :
  result (execute self w) = inl e ->
  is_Exception e = true ->
  launches (trace (execute self w)) = 0 /\ logs (trace (execute self w)) = 0.
Proof.
  intros Hres He.
  destruct (execute_shape self w) as
    [(t & e' & -> & Hl & Hg)|(origin & config & notify & Hready)]; [done|].
  rewrite (execute_ready _ _ _ _ _ Hready) in *. cbn zeta in *.
  destruct (sorted (keys notify)) as [|a rest]; [done|].
  rewrite for_each_cons_ends in * by apply loop_body_ends.
  rewrite loop_body_split in *.
  destruct (result (select_command self config a)) as [e0|[cmd|]];
    [done| |done].
  simpl in Hres.
  destruct (result (try_run w _)) as [e1|c] eqn:Hrun; [|done].
  apply try_run_raises in Hrun as (Hne & _ & _). congruence.
Qed.

Lemma exception_means_no_launch_witness :
  launches (trace (execute (__init__ "uw1234" (Some false))
                     (Demo.world Faulty.notify_undo_only Demo.not_found))) = 0 /\
  logs (trace (execute (__init__ "uw1234" (Some false))
                 (Demo.world Faulty.notify_undo_only Demo.not_found))) = 0.
Proof.
  apply (exception_means_no_launch (__init__ "uw1234" (Some false))
           (Demo.world Faulty.notify_undo_only Demo.not_found)
           (KeyError "command")); reflexivity.
Defined.

(** X7: [execute] logs only about a launch: a run holds at most two log
    records for each subprocess it launched, and none when it launched
    none. *)
Theorem logs_follow_launch (self : NotificationModule) (w : World) :
  logs (trace (execute self w)) <= 2 * launches (trace (execute self w)).
Proof.
  destruct (execute_shape self w) as
    [(t & e' & -> & Hl & Hg)|(origin & config & notify & Hready)];
    [simpl; lia|].
  rewrite (execute_ready _ _ _ _ _ Hready). cbn zeta. unfold trace at 1 3.
  cbn [fst]. rewrite logs_app, launches_app.
  change (logs (preamble w (_eventid self))) with 0.
  change (launches (preamble w (_eventid self))) with 0.
  destruct (sorted (keys notify)) as [|a rest];
    [unfold logs, launches, trace, mret, M_ret; simpl; lia|].
  rewrite for_each_cons_ends by apply loop_body_ends.
  rewrite loop_body_split.
  destruct (result (select_command self config a)) as [e0|[cmd|]];
    try (unfold logs, launches, trace, mret, M_ret; simpl; lia).
  rewrite try_run_launches. pose proof (try_run_logs w
    (command_argv cmd (aqms_eventid origin (_eventid self)))). lia.
Qed.

(** What is launched in a run that found the event data. *)
Lemma execute_launched self w origin config notify argv :
  ready w (_eventid self) origin config notify ->
  EvRun argv ∈ trace (execute self w) ->
  exists c a action cmd,
    cancel self = Some c /\
    notify !! a = Some action /\
    (forall k, is_Some (notify !! k) -> String.le a k) /\
    template c action = Some cmd /\
    argv = command_argv cmd (aqms_eventid origin (_eventid self)).
Proof.
  intros Hready Hrun.
  destruct (sorted (keys notify)) as [|a rest] eqn:Hs.
  - rewrite (execute_ready _ _ _ _ _ Hready), Hs in Hrun.
    simpl in Hrun. rewrite !elem_of_cons, elem_of_nil in Hrun.
    intuition congruence.
  - rewrite (execute_first _ _ _ _ _ _ _ Hready Hs) in Hrun.
    destruct Hready as (_ & _ & _ & _ & _ & Hn).
    simpl in Hrun. rewrite !elem_of_cons in Hrun.
    destruct Hrun as [?|[?|[?|Hrun]]]; try done.
    rewrite loop_body_split in Hrun.
    destruct (result (select_command self config a)) as [e|[cmd|]] eqn:Hsel;
      try (by apply elem_of_nil in Hrun).
    apply try_run_launched in Hrun.
    destruct (select_command_some _ _ _ _ _ Hn Hsel) as (c & action & Hc & Ha & Ht).
    exists c, a, action, cmd. repeat split; try done.
    intros k Hk. eapply sorted_head_least; [done|]. by apply elem_of_keys.
Qed.

(** X8: the flag decides which template is launched: with the flag on, a
    command that is launched was made from the [undo_command] of the
    least action, never from its [command]; with the flag off, from its
    [command]. *)
Theorem launched_template_by_flag (self : NotificationModule) (w : World)
    (origin : Origin) (config : Config) (notify : gmap string (gmap string string))
    (c : bool) (argv : list string) :
  ready w (_eventid self) origin config notify ->
  cancel self = Some c ->
  EvRun argv ∈ trace (execute self w) ->
  exists a action cmd,
    notify !! a = Some action /\
    (forall k, is_Some (notify !! k) -> String.le a k) /\
    (if c then action !! "undo_command" else action !! "command") = Some cmd /\
    argv = command_argv cmd (aqms_eventid origin (_eventid self)).
Proof.
  intros Hready Hc Hrun.
  destruct (execute_launched _ _ _ _ _ _ Hready Hrun)
    as (c' & a & action & cmd & Hc' & Ha & Hleast & Ht & Hargv).
  assert (c' = c) as -> by congruence.
  exists a, action, cmd. repeat split; try done.
Qed.

Lemma launched_template_by_flag_witness :
  exists a action cmd,
    Demo.notify !! a = Some action /\
    (forall k, is_Some (Demo.notify !! k) -> String.le a k) /\
    action !! "undo_command" = Some cmd /\
    ["alarm"; "-e"; "1234"; "--off"] =
    command_argv cmd (aqms_eventid Demo.origin "uw1234").
Proof.
  apply (launched_template_by_flag (__init__ "uw1234" (Some true))
           (Demo.world Demo.notify (Demo.exits_with 0)) Demo.origin
           {[ "notify" := Demo.notify ]} Demo.notify true
           ["alarm"; "-e"; "1234"; "--off"]
           (conj (ex_intro _ ("/opt/shakemap", "/data") eq_refl)
              (conj eq_refl (conj eq_refl
                 (conj eq_refl (conj eq_refl eq_refl)))))
           eq_refl).
  vm_compute. do 3 apply list_elem_of_further. apply list_elem_of_here.
Defined.

(** ** Further properties of the derived identifier *)

Lemma lower_char_idem c : PyStr.lower_char (PyStr.lower_char c) = PyStr.lower_char c.
Proof. destruct c as [[] [] [] [] [] [] [] []]; reflexivity. Qed.

Lemma lower_idem s : PyStr.lower (PyStr.lower s) = PyStr.lower s.
Proof. induction s as [|c s IH]; simpl; [done|]. by rewrite lower_char_idem, IH. Qed.

Lemma startswith_self_app p s : PyStr.startswith p (p +:+ s) = true.
Proof.
  induction p as [|c p IH]; [done|].
  change (String c p +:+ s) with (String c (p +:+ s)).
  cbn [PyStr.startswith]. by rewrite Ascii.eqb_refl, IH.
Qed.

Lemma slice_from_app p s : PyStr.slice_from (String.length p) (p +:+ s) = s.
Proof. induction p as [|c p IH]; [by destruct s|]. exact IH. Qed.

Lemma contains_empty s : PyStr.contains "" s = true.
Proof. by destruct s. Qed.

(** X9: when the network id in lower case has two characters, an
    identifier made of it and a suffix is derived to that suffix: what
    is removed is the network id. *)
Theorem netid_of_two_stripped (origin : Origin) (suffix : string) :
  String.length (PyStr.lower (netid origin)) = 2 ->
  aqms_eventid origin (PyStr.lower (netid origin) +:+ suffix) = suffix.
Proof.
  intros Hlen. unfold aqms_eventid.
  rewrite (startswith_contains _ _ (startswith_self_app _ _)).
  rewrite <- Hlen. apply slice_from_app.
Qed.

Lemma netid_of_two_stripped_witness :
  aqms_eventid Demo.origin (PyStr.lower "UW" +:+ "61234567") = "61234567".
Proof. apply (netid_of_two_stripped Demo.origin "61234567"). reflexivity. Defined.

(** X10: the case of the network id does not matter: an origin gives
    the same derived identifier as the origin with its network id in
    lower case. *)
Theorem netid_case_irrelevant (origin : Origin) (eventid : string) :
  aqms_eventid {| netid := PyStr.lower (netid origin); time := time origin |} eventid =
  aqms_eventid origin eventid.
Proof. unfold aqms_eventid. simpl. by rewrite lower_idem. Qed.

(** X11: an origin with an empty network id makes every identifier lose
    its first two characters, since the empty string occurs in every
    string. *)
Theorem empty_netid_strips (origin : Origin) (eventid : string) :
  netid origin = "" ->
  aqms_eventid origin eventid = PyStr.slice_from 2 eventid.
Proof. intros H. unfold aqms_eventid. rewrite H. simpl. by rewrite contains_empty. Qed.

Lemma empty_netid_strips_witness :
  aqms_eventid {| netid := ""; time := 0 |} "ci5678" = "5678".
Proof.
  apply (empty_netid_strips {| netid := ""; time := 0 |} "ci5678"). reflexivity.
Defined.

(** ** Further properties of the argument vector *)

Lemma append_nil_r s : s +:+ "" = s.
Proof.
  induction s as [|c s IH]; [done|].
  change (String c s +:+ "") with (String c (s +:+ "")). by rewrite IH.
Qed.

Lemma append_snoc_assoc cur c a : (cur +:+ String c "") +:+ a = cur +:+ String c a.
Proof.
  induction cur as [|d cur IH]; [done|].
  change (String d (((cur +:+ String c "")) +:+ a) = String d (cur +:+ String c a)).
  by rewrite IH.
Qed.

Lemma all_chars_app P s t :
  all_chars P (s +:+ t) = all_chars P s && all_chars P t.
Proof.
  induction s as [|c s IH]; [done|].
  change (String c s +:+ t) with (String c (s +:+ t)). simpl.
  by rewrite IH, andb_assoc.
Qed.

Lemma snoc_not_empty cur c : cur +:+ String c "" <> "".
Proof. by destruct cur. Qed.

Lemma split_from_words cur s a :
  all_chars (fun c => negb (PyStr.isspace c)) cur = true ->
  a ∈ PyStr.split_from cur s -> is_word a.
Proof.
  revert cur. induction s as [|c s IH]; intros cur Hcur; simpl.
  - case_decide; [by intros ?%elem_of_nil|].
    intros ->%list_elem_of_singleton. by split.
  - destruct (PyStr.isspace c) eqn:Hc.
    + case_decide; [by apply IH|].
      intros [->|Ha]%elem_of_cons; [by split|]. by apply (IH "").
    + apply IH. rewrite all_chars_app, Hcur. simpl. by rewrite Hc.
Qed.

(** X12: every argument of the vector is a word: it is not empty and
    holds no white space, whatever the template and the identifier are,
    and so no quoting in a template keeps an argument with blanks
    together. *)
Theorem argv_words (cmd id a : string) :
  a ∈ command_argv cmd id -> is_word a.
Proof. unfold command_argv, PyStr.split. by apply split_from_words. Qed.

Lemma argv_words_witness : is_word "alarm".
Proof.
  apply (argv_words "alarm -e <EVENT>" "1234" "alarm"). vm_compute. left.
Defined.

Lemma split_from_word cur a s :
  all_chars (fun c => negb (PyStr.isspace c)) a = true ->
  PyStr.split_from cur (a +:+ s) = PyStr.split_from (cur +:+ a) s.
Proof.
  revert cur. induction a as [|c a IH]; intros cur Ha.
  - by rewrite append_nil_r.
  - simpl in Ha. apply andb_true_iff in Ha as [Hc Ha].
    apply negb_true_iff in Hc.
    change (String c a +:+ s) with (String c (a +:+ s)).
    cbn [PyStr.split_from]. rewrite Hc, (IH _ Ha).
    by rewrite append_snoc_assoc.
Qed.

Lemma split_join_words l :
  Forall is_word l -> PyStr.split (PyStr.join " " l) = l.
Proof.
  unfold PyStr.split. induction 1 as [|a l [Hne Ha] Hl IH]; [done|].
  destruct l as [|b l].
  - transitivity (PyStr.split_from "" (a +:+ "")); [by rewrite append_nil_r|].
    rewrite split_from_word by done. simpl. by rewrite decide_False.
  - rewrite join_cons, split_from_word by done.
    change (" " +:+ PyStr.join " " (b :: l))
      with (String " " (PyStr.join " " (b :: l))).
    cbn [PyStr.split_from]. change (PyStr.isspace " ") with true. cbn iota.
    rewrite decide_False by done. by rewrite IH.
Qed.

(** X13: the command line that is logged gives back the argument
    vector: joining the vector with blanks and splitting the line again
    yields the same arguments. *)
Theorem logged_command_line_round_trip (cmd id : string) :
  PyStr.split (PyStr.join " " (command_argv cmd id)) = command_argv cmd id.
Proof.
  apply split_join_words, List.Forall_forall. intros a Ha%list_elem_of_In.
  unfold command_argv, PyStr.split in Ha. by apply split_from_words in Ha.
Qed.

Lemma blank_placeholder_free s :
  all_chars PyStr.isspace s = true -> placeholder_free s.
Proof.
  unfold placeholder_free.
  induction s as [|c s IH]; [done|]. simpl all_chars.
  intros [Hc Hs]%andb_true_iff. rewrite contains_cons, (IH Hs), orb_false_r.
  cbn [PyStr.startswith]. destruct (Ascii.eqb_spec "<" c) as [<-|]; [done|done].
Qed.

Lemma split_from_blank s :
  all_chars PyStr.isspace s = true -> PyStr.split_from "" s = [].
Proof.
  induction s as [|c s IH]; [done|]. simpl all_chars.
  intros [Hc Hs]%andb_true_iff. cbn [PyStr.split_from]. rewrite Hc.
  rewrite decide_True by done. by apply IH.
Qed.

(** X14: a template that is empty or all white space gives the empty
    argument vector, with which [subprocess.run] is then called. *)
Theorem blank_template_empty_argv (cmd id : string) :
  all_chars PyStr.isspace cmd = true -> command_argv cmd id = [].
Proof.
  intros H. unfold command_argv, PyStr.replace, PyStr.split.
  rewrite decide_False by done.
  rewrite replace_ne_free by by apply blank_placeholder_free.
  by apply split_from_blank.
Qed.

Lemma blank_template_empty_argv_witness : command_argv "   " "1234" = [].
Proof. apply (blank_template_empty_argv "   " "1234"). reflexivity. Defined.

(** ** Further properties of [parseArgs] *)

Lemma option_string_actions_cancel a :
  argparse.option_string_actions a = Some argparse.act_cancel -> is_cancel_flag a.
Proof.
  unfold argparse.option_string_actions, is_cancel_flag.
  repeat case_decide; intros; simplify_eq; auto.
Qed.

Lemma _parse_optional_class a k :
  argparse._parse_optional a = Some k ->
  match k with
  | argparse.Optional act => argparse.option_string_actions a = Some act
  | argparse.DoubleDash => False
  | _ => True
  end.
Proof.
  unfold argparse._parse_optional.
  destruct a as [|c rest]; [by intros [= <-]|].
  destruct (negb (Ascii.eqb c "-")); [by intros [= <-]|].
  destruct (argparse.option_string_actions (String c rest)) as [act|];
    [by intros [= <-]|].
  repeat match goal with
         | |- context [if ?b then _ else _] => destruct b
         end; by intros [= <-].
Qed.

Lemma consume_returns l cs c extras ns :
  argparse.arg_classes l = Some cs ->
  argparse.consume c extras (zip cs l) = Some (inr ns) ->
  extras = [] /\
  exists flags,
    l = (flags ++ argparse.rem ns)%list /\
    Forall is_cancel_flag flags /\
    argparse.ns_cancel ns = c || bool_decide (flags <> []) /\
    match argparse.rem ns with
    | [] => True
    | a :: _ => a = "--" \/ argparse._parse_optional a = Some argparse.Positional
    end.
Proof.
  revert cs c extras.
  induction l as [|a l IH]; intros cs c extras Hcs Hcons.
  - simpl in Hcs. simplify_eq/=. case_decide; simplify_eq/=.
    split; [done|]. exists []. by rewrite orb_false_r.
  - pose proof (arg_classes_length _ _ Hcs) as Hlen.
    assert ((zip cs (a :: l)).*2 = a :: l) as Hsnd by (apply snd_zip; lia).
    simpl in Hcs. case_decide as Hdd.
    { simplify_eq/=. case_decide; simplify_eq/=. split; [done|].
      exists []. rewrite orb_false_r.
      rewrite length_map in Hlen.
      assert ((zip (map (fun _ => argparse.Positional) l) l).*2 = l) as ->
        by (apply snd_zip; rewrite length_map; lia).
      repeat split; auto. }
    destruct (argparse._parse_optional a) as [k|] eqn:Hk; [|done].
    destruct (argparse.arg_classes l) as [cs'|] eqn:Hcs'; simplify_eq/=.
    pose proof (_parse_optional_class _ _ Hk) as Hclass.
    destruct k as [| |[]| |]; simpl in Hcons; try done.
    + case_decide; simplify_eq/=. split; [done|].
      exists []. rewrite orb_false_r. simpl in Hsnd. rewrite Hsnd.
      repeat split; auto.
    + destruct (IH _ _ _ eq_refl Hcons) as (-> & flags & Hl & Hflags & Hc & Hhead).
      split; [done|]. exists (a :: flags). rewrite Hc.
      repeat split; [by rewrite Hl| |by rewrite orb_true_r|done].
      constructor; [by apply option_string_actions_cancel|done].
    + destruct (IH _ _ _ eq_refl Hcons) as (Hnil & _).
      by destruct extras.
Qed.

(** X15: when [parseArgs] returns, what it took from the front of the
    argument list are spellings of its own flag only, and what it
    returns is the rest of the list as it was, beginning (if not empty)
    with [--] or with a string that is not option-like; the flag is on
    exactly when something was taken, and the event id is kept. *)
Theorem parseArgs_returns (self : NotificationModule) (arglist : list string)
    (self' : NotificationModule) (rem : list string) :
  parseArgs self arglist = Some (inr (self', rem)) ->
  exists flags,
    arglist = (flags ++ rem)%list /\
    Forall is_cancel_flag flags /\
    _eventid self' = _eventid self /\
    cancel self' = Some (bool_decide (flags <> [])) /\
    match rem with
    | [] => True
    | a :: _ => a = "--" \/ argparse._parse_optional a = Some argparse.Positional
    end.
Proof.
  unfold parseArgs, argparse.parse_args. intros H.
  destruct (argparse.arg_classes arglist) as [cs|] eqn:Hcs; [|done].
  simpl in H.
  destruct (argparse.consume false [] (zip cs arglist)) as [[e|ns]|] eqn:Hcons;
    simplify_eq/=.
  destruct (consume_returns _ _ _ _ _ Hcs Hcons)
    as (_ & flags & Hl & Hflags & Hc & Hhead).
  exists flags. rewrite Hc. by repeat split.
Qed.

Lemma parseArgs_returns_witness :
  exists flags,
    ["-c"; "--cancel"; "assemble"; "-c"] = (flags ++ ["assemble"; "-c"])%list /\
    Forall is_cancel_flag flags /\
    "uw1234" = "uw1234" /\
    Some true = Some (bool_decide (flags <> [])) /\
    ("assemble" = "--" \/
     argparse._parse_optional "assemble" = Some argparse.Positional).
Proof.
  apply (parseArgs_returns (__init__ "uw1234" None)
           ["-c"; "--cancel"; "assemble"; "-c"]
           {| _eventid := "uw1234"; cancel := Some true |}
           ["assemble"; "-c"]).
  reflexivity.
Defined.

(** X16: [parseArgs] followed by [execute]: for an argument list made
    of this module's flags and a remainder that is empty or starts with
    a string without a leading dash, and in which no string starts with
    [--=], [parseArgs] returns the remainder, and with the event data
    there a command that [execute] then launches was made from the
    [undo_command] of the least action when there was at least one flag,
    and from its [command] when there was none. *)
Theorem parseArgs_then_execute (self : NotificationModule)
    (flags rest : list string) (w : World) (origin : Origin) (config : Config)
    (notify : gmap string (gmap string string)) (argv : list string) :
  Forall is_cancel_flag flags ->
  match rest with [] => True | a :: _ => PyStr.startswith "-" a = false end ->
  Forall (fun a => PyStr.startswith "--=" a = false) rest ->
  ready w (_eventid self) origin config notify ->
  exists self',
    parseArgs self (flags ++ rest) = Some (inr (self', rest)) /\
    (EvRun argv ∈ trace (execute self' w) ->
     exists a action cmd,
       notify !! a = Some action /\
       (forall k, is_Some (notify !! k) -> String.le a k) /\
       (if bool_decide (flags <> [])
        then action !! "undo_command" else action !! "command") = Some cmd /\
       argv = command_argv cmd (aqms_eventid origin (_eventid self))).
Proof.
  intros Hflags Hhead Hrest Hready.
  destruct (parse_args_flags _ _ Hflags Hhead Hrest) as (cs & Hcs & Hcons).
  eexists. split.
  - unfold parseArgs, argparse.parse_args. rewrite Hcs. simpl.
    rewrite Hcons. reflexivity.
  - simpl. intros Hrun.
    destruct (execute_launched
                {| _eventid := _eventid self;
                   cancel := Some (bool_decide (flags <> [])) |}
                _ _ _ _ _ Hready Hrun)
      as (c & a & action & cmd & Hc & Ha & Hleast & Ht & Hargv).
    simpl in Hc. simplify_eq. by exists a, action, cmd.
Qed.

Lemma parseArgs_then_execute_witness :
  exists self',
    parseArgs (__init__ "uw1234" None) ["--cancel"; "assemble"] =
      Some (inr (self', ["assemble"])) /\
    (EvRun ["alarm"; "-e"; "1234"; "--off"] ∈
       trace (execute self' (Demo.world Demo.notify (Demo.exits_with 0))) ->
     exists a action cmd,
       Demo.notify !! a = Some action /\
       (forall k, is_Some (Demo.notify !! k) -> String.le a k) /\
       action !! "undo_command" = Some cmd /\
       ["alarm"; "-e"; "1234"; "--off"] =
       command_argv cmd (aqms_eventid Demo.origin "uw1234")).
Proof.
  apply (parseArgs_then_execute (__init__ "uw1234" None)
           ["--cancel"] ["assemble"]
           (Demo.world Demo.notify (Demo.exits_with 0)) Demo.origin
           {[ "notify" := Demo.notify ]} Demo.notify
           ["alarm"; "-e"; "1234"; "--off"]).
  - constructor; [right; reflexivity | constructor].
  - reflexivity.
  - repeat constructor.
  - unfold ready. split; [by eexists|]. repeat split; reflexivity.
Defined.
